(** * cogent3.util.parallel: an order-preserving parallel map

    A shallow embedding of [src/cogent3/util/parallel.py] and the properties
    of its specification.

    Conventions of the embedding.
    - Python [int] is [Z] (unbounded, no wrap-around); [None]-able arguments
      are [option].
    - Python [str] is [string]; an [ascii] stands for a code point below 256
      (Latin-1), which covers every literal of the module and every process
      name the [multiprocessing] package generates.
    - A Python call either returns or raises: [pyres].
    - [assert] is the statement of an interpreter started without [-O]: a
      false condition raises [AssertionError].
    - The module's process-wide state ([_FUNCTIONS]) and the side effects on
      the outside (pools created, workers started, warnings, pools shut
      down) are threaded explicitly in a [world].
    - [imap] is a generator function: calling it builds a generator object
      and runs nothing; [next] runs the body up to the next [yield]. *)

From stdpp Require Import gmap strings list pretty.
From Stdlib Require Import ZArith Ascii String Lia.

Open Scope string_scope.
Open Scope Z_scope.

Module parallel.

(** ** Python values and exceptions *)

(** The exception classes the module and its collaborators raise.  The
    messages are those the source gives; [None] is a [raise] of the bare
    class or an [assert] without message. *)
Inductive exn : Type :=
  | AssertionError (msg : option string)
  | RuntimeError (msg : option string)
  | ValueError
  | TypeError
  | IndexError
  | NameError (name : string)
  | BrokenProcessPool
  | UserError (code : Z).

Inductive pyres (T : Type) : Type :=
  | Ok (v : T)
  | Raise (e : exn).
Arguments Ok {T} v.
Arguments Raise {T} e.

(** Sequencing: the first exception raised ends the computation. *)
Global Instance pyres_bind : MBind pyres := fun T U k r =>
  match r with
  | Ok v => k v
  | Raise e => Raise e
  end.

Global Instance exn_eq_dec : EqDecision exn.
Proof. solve_decision. Defined.

(** ** Strings *)

(** [str.lower()] on code points below 256: the ASCII capitals and the
    Latin-1 capitals U+00C0..U+00DE (the sign U+00D7 apart) move up by 32. *)
Definition lower_char (c : ascii) : ascii :=
  let n := N_of_ascii c in
  if (((65 <=? n) && (n <=? 90)) ||
      ((192 <=? n) && (n <=? 222) && negb (n =? 215)))%N
  then ascii_of_N (n + 32) else c.

Fixpoint lower (s : string) : string :=
  match s with
  | EmptyString => EmptyString
  | String c s' => String (lower_char c) (lower s')
  end.

(** [s[-1]]: the last character, [IndexError] on the empty string. *)
Fixpoint last_char (s : string) : pyres ascii :=
  match s with
  | EmptyString => Raise IndexError
  | String c EmptyString => Ok c
  | String _ s' => last_char s'
  end.

(** [int(c)] for a one-character string: the decimal digits convert, every
    other code point below 256 is a [ValueError]. *)
Definition int_of_char (c : ascii) : pyres Z :=
  let n := N_of_ascii c in
  if ((48 <=? n) && (n <=? 57))%N then Ok (Z.of_N (n - 48)) else Raise ValueError.

(** Truth value of an optional int, as [not max_workers] tests it. *)
Definition truthy (x : option Z) : bool :=
  match x with
  | None => false
  | Some n => negb (n =? 0)
  end.

(** ** The process environment

    What the module reads from outside and never writes. *)
Record env : Type := {
  DONT_USE_MPI : option string;   (* os.environ.get('DONT_USE_MPI') *)
  mpi4py_importable : bool;       (* whether `from mpi4py import MPI` succeeds *)
  UNIVERSE_SIZE : option Z;       (* COMM.Get_attr(MPI.UNIVERSE_SIZE); None when unset *)
  COMM_size : Z;                  (* COMM.Get_size() *)
  COMM_rank : Z;                  (* COMM.Get_rank() *)
  cpu_count : Z;                  (* multiprocessing.cpu_count() *)
  clock : Z;                      (* int(time.time()) *)
  child_prefix : string;          (* type(Process).__name__ + '-' + the parent's identity *)
  schedule : nat -> nat           (* which worker of a pool picks up the i-th item *)
}.

(** ** Module-level code (lines 24-56) *)

(** The names the module body binds. [COMM] is bound only on the [else]
    branch of the import; [MPI] is rebound to [None] afterwards when the
    universe has one slot. *)
Record module_state : Type := {
  MPI : bool;          (* MPI is not None *)
  COMM : option Z;     (* the rank COMM answers, when COMM is bound *)
  USING_MPI : bool
}.

(** Truth value of [os.environ.get('DONT_USE_MPI', 0)]: a set, non-empty
    variable. *)
Definition env_flag (v : option string) : bool :=
  match v with
  | None => false
  | Some s => negb (String.eqb s "")
  end.

(** ** generate_seed (lines 39-49)

    [comm] is the rank [COMM.Get_rank()] answers ([None]: the name [COMM] is
    unbound), [process_name] is [multiprocessing.current_process().name] and
    [now] is [int(time.time())] in the process that runs the call.  The
    result is the value assigned to the global [random_seed]. *)

(** Lines 41-45: the rank of the running process. *)
Definition process_rank (comm : option Z) (process_name : string)
    (use_mpi : bool) : pyres Z :=
  if use_mpi then
    match comm with
    | Some r => Ok r
    | None => Raise (NameError "COMM")
    end
  else
    c ← last_char process_name; int_of_char c.

Definition generate_seed (comm : option Z) (process_name : string) (now : Z)
    (use_mpi : bool) (seed : option Z) : pyres Z :=
  rank ← process_rank comm process_name use_mpi;
  match seed with
  | Some sd => Ok (sd + rank)
  | None => Ok (now + rank)
  end.

(** Lines 24-37 and 51-56.  With more than one process in the communicator
    the call [generate_seed(True, seed)] evaluates the global name [seed],
    which the module never binds. *)
Definition module_init (e : env) : pyres module_state :=
  let imported := negb (env_flag (DONT_USE_MPI e)) && mpi4py_importable e in
  let mpi :=
    imported && negb (bool_decide (UNIVERSE_SIZE e = Some 1)) in
  let comm := if imported then Some (COMM_rank e) else None in
  if mpi then
    if 1 <? COMM_size e then Raise (NameError "seed")
    else Ok {| MPI := true; COMM := comm; USING_MPI := true |}
  else Ok {| MPI := false; COMM := comm; USING_MPI := false |}.


(** A process as [generate_seed] sees it. *)
Record process : Type := {
  p_comm : option Z;
  p_name : string;
  p_now : Z
}.

Section Embedding.

(** The items of the input sequence and the results of the mapped function. *)
Context {A B : Type}.

(** A function object: its identity [id(f)] and what calling it does. *)
Record pyfunc : Type := {
  fid : Z;
  fcall : A -> pyres B
}.

(** ** Observable effects and process-wide state *)

Inductive backend : Type := LOCAL | DISTRIBUTED.

Inductive event : Type :=
  | PoolCreated (b : backend) (max_workers : Z)
  | WorkerStarted (name : string) (random_seed : pyres Z)
  | Warned (message : string)
  | PoolShutdown (b : backend).

Record world : Type := {
  _FUNCTIONS : gmap Z pyfunc;     (* line 59 *)
  process_counter : N;            (* children this process has created so far *)
  events : list event             (* oldest first *)
}.

(** Computations of the submitting process: they read and write the world
    and return or raise. *)
Definition M (T : Type) : Type := world -> world * pyres T.

Definition ret {T : Type} (v : T) : M T := fun w => (w, Ok v).
Definition raise {T : Type} (ex : exn) : M T := fun w => (w, Raise ex).
Definition lift {T : Type} (r : pyres T) : M T := fun w => (w, r).
Global Instance M_bind : MBind M := fun T U k c w =>
  match c w with
  | (w1, Ok v) => k v w1
  | (w1, Raise ex) => (w1, Raise ex)
  end.

Definition emit (ev : event) : M unit := fun w =>
  ({| _FUNCTIONS := _FUNCTIONS w; process_counter := process_counter w;
      events := events w ++ [ev] |}, Ok tt).

(** [assert cond, msg] *)
Definition py_assert (cond : bool) (msg : option string) : M unit :=
  if cond then ret tt else raise (AssertionError msg).

(** [_FUNCTIONS[key] = f] *)
Definition set_function (k : Z) (f : pyfunc) : M unit := fun w =>
  ({| _FUNCTIONS := <[k := f]> (_FUNCTIONS w);
      process_counter := process_counter w; events := events w |}, Ok tt).

(** ** PicklableAndCallable (lines 62-74) *)

Record PicklableAndCallable : Type := {
  key : Z;
  func : option pyfunc
}.

(** [__init__] *)
Definition PicklableAndCallable_init (k : Z) : PicklableAndCallable :=
  {| key := k; func := None |}.

(** [__call__], in a process whose registry is [registry]: the proxy after
    the call (with [self.func] cached) and the outcome. *)
Definition PicklableAndCallable_call (registry : gmap Z pyfunc)
    (self : PicklableAndCallable) (x : A) : PicklableAndCallable * pyres B :=
  match func self with
  | Some f => (self, fcall f x)
  | None =>
      match registry !! key self with
      | Some f => ({| key := key self; func := Some f |}, fcall f x)
      | None => (self, Raise (RuntimeError None))
      end
  end.

(** ** The external collaborators

    The warnings module and the two pools are not code of the module; they
    are modelled as far as the module's control flow depends on them. *)

(** [warnings.warn(message, category=None, stacklevel=1, source=None)]: a
    keyword argument outside this signature is a [TypeError], raised before
    anything is emitted. *)
Definition warn_keywords : list string :=
  ["message"; "category"; "stacklevel"; "source"].

Definition warnings_warn (message : string) (keywords : list string) : M unit :=
  if forallb (fun k => bool_decide (k ∈ warn_keywords)) keywords
  then emit (Warned message)
  else raise TypeError.

(** The constructor of either pool: a worker count that is not positive is
    a [ValueError]; no worker is started yet. *)
Definition pool_ctor (b : backend) (max_workers : Z) : M unit :=
  if max_workers <=? 0 then raise ValueError
  else emit (PoolCreated b max_workers).

(** A worker process of the local pool: a child forked from the submitting
    process, so it starts with a copy of the submitter's registry; its name
    is the one [multiprocessing] gives the [k]-th child. *)
Record worker : Type := {
  w_name : string;
  w_FUNCTIONS : gmap Z pyfunc;
  w_random_seed : pyres Z         (* outcome of the initializer *)
}.

Definition worker_name (e : env) (k : N) : string := child_prefix e +:+ pretty k.

(** Starting the [k]-th child with [initializer=generate_seed],
    [initargs=[False, seed]]. *)
Definition start_worker (m : module_state) (e : env) (registry : gmap Z pyfunc)
    (seed : option Z) (k : N) : worker :=
  {| w_name := worker_name e k;
     w_FUNCTIONS := registry;
     w_random_seed := generate_seed (COMM m) (worker_name e k) (clock e) false seed |}.

Definition initialised (wk : worker) : bool :=
  match w_random_seed wk with
  | Ok _ => true
  | Raise _ => false
  end.

(** The [i]-th item, run by the worker the schedule picks.  Every task
    carries its own pickled copy of the proxy. *)
Definition run_item (e : env) (workers : list worker) (proxy : PicklableAndCallable)
    (i : nat) (x : A) : pyres B :=
  match workers !! (schedule e i `mod` List.length workers)%nat with
  | Some wk => snd (PicklableAndCallable_call (w_FUNCTIONS wk) proxy x)
  | None => Raise BrokenProcessPool
  end.

Fixpoint run_items (e : env) (workers : list worker) (proxy : PicklableAndCallable)
    (i : nat) (s : list A) : list (pyres B) :=
  match s with
  | [] => []
  | x :: s' => run_item e workers proxy i x :: run_items e workers proxy (S i) s'
  end.

(** [executor.map(f, s)] of [ProcessPoolExecutor]: every item is submitted at
    once; the first submission starts the [max_workers] workers; the results
    come back in the order of the items.  A worker whose initializer raised
    breaks the pool. *)
Definition local_map (m : module_state) (e : env) (max_workers : Z)
    (seed : option Z) (proxy : PicklableAndCallable) (s : list A)
    : M (list (pyres B)) := fun w =>
  match s with
  | [] => (w, Ok [])
  | _ :: _ =>
      let n := Z.to_nat max_workers in
      let workers :=
        (fun i => start_worker m e (_FUNCTIONS w) seed
                    (process_counter w + 1 + N.of_nat i)%N) <$> seq 0 n in
      let w1 :=
        {| _FUNCTIONS := _FUNCTIONS w;
           process_counter := (process_counter w + N.of_nat n)%N;
           events := events w ++
             ((fun wk => WorkerStarted (w_name wk) (w_random_seed wk)) <$> workers) |} in
      if forallb initialised workers
      then (w1, Ok (run_items e workers proxy 0 s))
      else (w1, Ok ((fun _ => Raise BrokenProcessPool) <$> s))
  end.

(** [executor.map(f, s)] of [MPIPoolExecutor]: the function itself travels
    to the remote workers; the results come back in the order of the items. *)
Definition mpi_map (f : pyfunc) (s : list A) : M (list (pyres B)) :=
  ret (fcall f <$> s).

(** ** imap (lines 77-136) *)

Record imap_args : Type := {
  a_f : pyfunc;
  a_s : list A;
  a_max_workers : option Z;
  a_use_mpi : bool;
  a_seed : option Z;
  a_if_serial : string
}.

Definition err_msg : string :=
  "Execution in serial. For parallel MPI execution, use:" +:+
  String "010" " $ mpirun -n 1 <executable script>".

(** [max_workers] after [if not max_workers: max_workers = default]. *)
Definition or_default (max_workers : option Z) (dflt : pyres Z) : pyres Z :=
  match max_workers with
  | Some n => if truthy max_workers then Ok n else dflt
  | None => dflt
  end.


Definition policies : list string := ["ignore"; "raise"; "warn"].

(** The body of [imap] from its first line to the point where the [for]
    loop holds the iterator of [executor.map], inside the [with] block. *)
Definition imap_start (m : module_state) (e : env) (a : imap_args)
    : M (backend * list (pyres B)) :=
  let if_serial := lower (a_if_serial a) in
  _ ← py_assert (bool_decide (if_serial ∈ policies))
         (Some ("invalid choice '" +:+ if_serial +:+ "'"));
  if a_use_mpi a then
   (_ ← (if negb (USING_MPI m)
          then raise (RuntimeError (Some "Cannot use MPI")) else ret tt);
    _ ← (if bool_decide (UNIVERSE_SIZE e = Some 1) && String.eqb if_serial "raise"
          then raise (RuntimeError (Some err_msg))
          else if bool_decide (UNIVERSE_SIZE e = Some 1) && String.eqb if_serial "warn"
          then warnings_warn "UserWarning" ["msg"]
          else ret tt);
    max_workers ← lift (or_default (a_max_workers a)
                           match UNIVERSE_SIZE e with
                           | Some u => Ok (u - 1)
                           | None => Raise TypeError
                           end);
    _ ← pool_ctor DISTRIBUTED max_workers;
    it ← mpi_map (a_f a) (a_s a);
    ret (DISTRIBUTED, it))
  else
    max_workers ← lift (or_default (a_max_workers a) (Ok (cpu_count e - 1)));
    _ ← py_assert (max_workers <? cpu_count e) None;
    let key := fid (a_f a) in
    _ ← set_function key (a_f a);
    let f := PicklableAndCallable_init (fid (a_f a)) in
    _ ← pool_ctor LOCAL max_workers;
    it ← local_map m e max_workers (a_seed a) f (a_s a);
    ret (LOCAL, it).

(** A generator object of [imap]. *)
Inductive generator : Type :=
  | GenCreated (a : imap_args)                      (* the body has not started *)
  | GenSuspended (b : backend) (it : list (pyres B)) (* at [yield result] *)
  | GenFinished.

(** What [next(g)] does to its caller. *)
Inductive step : Type :=
  | Yielded (v : B)
  | StopIteration
  | Raised (ex : exn).

(** The [for] loop over the iterator: the next result is yielded; an
    exhausted iterator or a raising result leaves the [with] block, which
    shuts the pool down. *)
Definition imap_resume (b : backend) (it : list (pyres B)) (w : world)
    : world * step * generator :=
  match it with
  | [] => (fst (emit (PoolShutdown b) w), StopIteration, GenFinished)
  | Ok v :: it' => (w, Yielded v, GenSuspended b it')
  | Raise ex :: _ => (fst (emit (PoolShutdown b) w), Raised ex, GenFinished)
  end.

(** [next(g)] *)
Definition next (m : module_state) (e : env) (g : generator) (w : world)
    : world * step * generator :=
  match g with
  | GenCreated a =>
      match imap_start m e a w with
      | (w1, Ok (b, it)) => imap_resume b it w1
      | (w1, Raise ex) => (w1, Raised ex, GenFinished)
      end
  | GenSuspended b it => imap_resume b it w
  | GenFinished => (w, StopIteration, GenFinished)
  end.

(** Calling [imap]: the arguments are bound in a new generator object. *)
Definition imap (a : imap_args) : M generator :=
  ret (GenCreated a).

(** ** map (lines 138-140) *)

(** [list(g)]: [next] until the generator stops or raises. *)
Fixpoint drain (fuel : nat) (m : module_state) (e : env) (g : generator)
    (acc : list B) (w : world) : option (world * pyres (list B)) :=
  match fuel with
  | O => None
  | S fuel' =>
      match next m e g w with
      | (w1, Yielded v, g1) => drain fuel' m e g1 (acc ++ [v]) w1
      | (w1, StopIteration, _) => Some (w1, Ok acc)
      | (w1, Raised ex, _) => Some (w1, Raise ex)
      end
  end.

(** Calls of [next] that certainly exhaust [g]. *)
Definition gen_fuel (g : generator) : nat :=
  match g with
  | GenCreated a => S (S (List.length (a_s a)))
  | GenSuspended _ it => S (List.length it)
  | GenFinished => 1
  end.

Definition py_list (m : module_state) (e : env) (g : generator) (w : world)
    : option (world * pyres (list B)) :=
  drain (gen_fuel g) m e g [] w.

Definition map (m : module_state) (e : env) (a : imap_args) (w : world)
    : option (world * pyres (list B)) :=
  match imap a w with
  | (w1, Ok g) => py_list m e g w1
  | (w1, Raise ex) => Some (w1, Raise ex)
  end.


(** ** Vocabulary of the properties *)

Implicit Types (w : world) (a : imap_args) (it : list (pyres B)).

(** The [with] block's exit. *)
Definition shutdown (b : backend) w : world :=
  fst (emit (PoolShutdown b) w).

(** The results of an iterator gathered in a list, up to the first
    exception. *)
Fixpoint collect it : pyres (list B) :=
  match it with
  | [] => Ok []
  | Ok v :: it' =>
      match collect it' with
      | Ok l => Ok (v :: l)
      | Raise ex => Raise ex
      end
  | Raise ex :: _ => Raise ex
  end.

(** The message of the assertion of line 102. *)
Definition invalid_choice (if_serial : string) : exn :=
  AssertionError (Some ("invalid choice '" +:+ lower if_serial +:+ "'")).

(** The worker count of a local call: the one supplied, or the local CPU
    count minus one when none or zero is supplied. *)
Definition local_workers (e : env) a : Z :=
  match a_max_workers a with
  | Some n => if n =? 0 then cpu_count e - 1 else n
  | None => cpu_count e - 1
  end.

(** The world once line 130 has run. *)
Definition registered a w : world :=
  fst (set_function (fid (a_f a)) (a_f a) w).

(** Whether a call reaches line 130. *)
Definition registers (e : env) a : bool :=
  bool_decide (lower (a_if_serial a) ∈ policies)
  && negb (a_use_mpi a)
  && (local_workers e a <? cpu_count e).

(** The three failures of validation, in the order the body checks them:
    an unrecognised policy, MPI asked for but not in use, a local worker
    count that is not below the CPU count. *)
Definition precondition_failure (m : module_state) (e : env) a : option exn :=
  if bool_decide (lower (a_if_serial a) ∈ policies) then
    if a_use_mpi a then
      if USING_MPI m then None else Some (RuntimeError (Some "Cannot use MPI"))
    else
      if local_workers e a <? cpu_count e then None else Some (AssertionError None)
  else Some (invalid_choice (a_if_serial a)).



(** The call [a] with another policy. *)
Definition with_if_serial a (if_serial : string) : imap_args :=
  {| a_f := a_f a; a_s := a_s a; a_max_workers := a_max_workers a;
     a_use_mpi := a_use_mpi a; a_seed := a_seed a;
     a_if_serial := if_serial |}.

(** [n] calls of [next] in a row, whatever each of them does: the steps
    seen, oldest first, and the generator and world they leave. *)
Fixpoint advance (n : nat) (m : module_state) (e : env) (g : generator) w
    : world * list step * generator :=
  match n with
  | O => (w, [], g)
  | S n' =>
      match next m e g w with
      | (w1, st, g1) =>
          match advance n' m e g1 w1 with
          | (w2, sts, g2) => (w2, st :: sts, g2)
          end
      end
  end.

Definition is_worker_start (ev : event) : bool :=
  match ev with
  | WorkerStarted _ _ => true
  | _ => false
  end.

(** The start of [n] children after the [c] this process has created, each
    seeded with the base seed, or the clock, plus the last digit of its
    number. *)
Definition worker_starts (e : env) (seed : option Z) (c : N) (n : nat)
    : list event :=
  (fun i =>
     WorkerStarted (worker_name e (c + 1 + N.of_nat i)%N)
       (Ok (default (clock e) seed
            + Z.of_N ((c + 1 + N.of_nat i) `mod` 10)%N))) <$> seq 0 n.

End Embedding.

Arguments pyfunc : clear implicits.
Arguments world : clear implicits.
Arguments event : clear implicits.
Arguments worker : clear implicits.
Arguments imap_args : clear implicits.
Arguments generator : clear implicits.
Arguments step : clear implicits.
Arguments M : clear implicits.
Arguments PicklableAndCallable : clear implicits.

(** ** A concrete machine and concrete calls

    Four CPUs, no MPI, children named [ForkProcess-k], items handed out
    round robin; the clock reads 1000. *)

Definition demo_env : env :=
  {| DONT_USE_MPI := None; mpi4py_importable := false; UNIVERSE_SIZE := None;
     COMM_size := 1; COMM_rank := 0; cpu_count := 4; clock := 1000;
     child_prefix := "ForkProcess-"; schedule := fun i => i |}.

Definition demo_module : module_state :=
  {| MPI := false; COMM := None; USING_MPI := false |}.

(** The same machine with [mpi4py] installed and a universe of one slot. *)
Definition single_slot_env : env :=
  {| DONT_USE_MPI := None; mpi4py_importable := true; UNIVERSE_SIZE := Some 1;
     COMM_size := 1; COMM_rank := 0; cpu_count := 4; clock := 1000;
     child_prefix := "ForkProcess-"; schedule := fun i => i |}.

Definition single_slot_module : module_state :=
  {| MPI := false; COMM := Some 0; USING_MPI := false |}.

(** The machine under [mpirun -n 1] with a universe of four slots. *)
Definition mpi_env : env :=
  {| DONT_USE_MPI := None; mpi4py_importable := true; UNIVERSE_SIZE := Some 4;
     COMM_size := 1; COMM_rank := 0; cpu_count := 4; clock := 1000;
     child_prefix := "ForkProcess-"; schedule := fun i => i |}.

Definition mpi_module : module_state :=
  {| MPI := true; COMM := Some 0; USING_MPI := true |}.

(** The same with an MPI that does not set the universe size. *)
Definition unset_universe_env : env :=
  {| DONT_USE_MPI := None; mpi4py_importable := true; UNIVERSE_SIZE := None;
     COMM_size := 1; COMM_rank := 0; cpu_count := 4; clock := 1000;
     child_prefix := "ForkProcess-"; schedule := fun i => i |}.

(** The MPI machine with [DONT_USE_MPI=0] in the environment. *)
Definition disabled_env : env :=
  {| DONT_USE_MPI := Some "0"; mpi4py_importable := true;
     UNIVERSE_SIZE := Some 4; COMM_size := 1; COMM_rank := 0; cpu_count := 4;
     clock := 1000; child_prefix := "ForkProcess-"; schedule := fun i => i |}.

(** The MPI machine started with [mpirun -n 2]. *)
Definition two_ranks_env : env :=
  {| DONT_USE_MPI := None; mpi4py_importable := true; UNIVERSE_SIZE := Some 4;
     COMM_size := 2; COMM_rank := 0; cpu_count := 4; clock := 1000;
     child_prefix := "ForkProcess-"; schedule := fun i => i |}.

Definition double : pyfunc Z Z :=
  {| fid := 77; fcall := fun x => Ok (2 * x) |}.

(** A function that raises on the item 2. *)
Definition picky : pyfunc Z Z :=
  {| fid := 78;
     fcall := fun x => if x =? 2 then Raise (UserError 2) else Ok (2 * x) |}.

(** Another function object at the identity of [double]. *)
Definition triple : pyfunc Z Z :=
  {| fid := 77; fcall := fun x => Ok (3 * x) |}.

Definition empty_world : world Z Z :=
  {| _FUNCTIONS := ∅; process_counter := 0; events := [] |}.

(** [imap(f, [1, 2, 3], max_workers, use_mpi, None, if_serial)] *)
Definition demo_call (f : pyfunc Z Z) (max_workers : option Z) (use_mpi : bool)
    (if_serial : string) : imap_args Z Z :=
  {| a_f := f; a_s := [1; 2; 3]; a_max_workers := max_workers;
     a_use_mpi := use_mpi; a_seed := None; a_if_serial := if_serial |}.

(** [PicklableAndCallable(id(double))] *)
Definition demo_proxy : PicklableAndCallable Z Z :=
  PicklableAndCallable_init 77.

(** [imap(double, [], max_workers=2)] *)
Definition empty_call : imap_args Z Z :=
  {| a_f := double; a_s := []; a_max_workers := Some 2; a_use_mpi := false;
     a_seed := None; a_if_serial := "raise" |}.

(** A machine with sixteen CPUs. *)
Definition big_env : env :=
  {| DONT_USE_MPI := None; mpi4py_importable := false; UNIVERSE_SIZE := None;
     COMM_size := 1; COMM_rank := 0; cpu_count := 16; clock := 1000;
     child_prefix := "ForkProcess-"; schedule := fun i => i |}.

(** [imap(double, [1, 2, 3], max_workers=11, seed=42)] *)
Definition seeded_call : imap_args Z Z :=
  {| a_f := double; a_s := [1; 2; 3]; a_max_workers := Some 11;
     a_use_mpi := false; a_seed := Some 42; a_if_serial := "raise" |}.

(** * Properties *)

(** ** Process names and ranks *)

Lemma last_char_app (p s : string) :
  s ≠ "" -> last_char (p +:+ s) = last_char s.
Proof.
  intros Hs. induction p as [|c p IH]; simpl; [done|].
  rewrite <- IH. destruct (p +:+ s) eqn:E; [|done].
  destruct p; [|discriminate]. by destruct s.
Qed.

Lemma last_char_pretty_N_go (x : N) (s : string) :
  s ≠ "" -> last_char (pretty_N_go x s) = last_char s.
Proof.
  revert s. induction (N.lt_wf_0 x) as [x _ IH]; intros s Hs.
  destruct (decide (x = 0)%N) as [->|Hx].
  - by rewrite pretty_N_go_0.
  - rewrite pretty_N_go_step by lia.
    rewrite IH; [| apply N.div_lt; lia | done].
    simpl. by destruct s.
Qed.

Lemma last_char_pretty (k : N) :
  last_char (pretty k) = Ok (pretty_N_char (k `mod` 10)).
Proof.
  unfold pretty, pretty_N. destruct (decide (k = 0)%N) as [->|Hk]; [done|].
  rewrite pretty_N_go_step by lia.
  by rewrite last_char_pretty_N_go.
Qed.

Lemma pretty_neq_empty (k : N) : pretty k ≠ "".
Proof.
  intros E. pose proof (last_char_pretty k) as H. rewrite E in H. discriminate.
Qed.

Lemma int_of_char_digit (d : N) :
  (d < 10)%N -> int_of_char (pretty_N_char d) = Ok (Z.of_N d).
Proof.
  intros Hd.
  assert (d = 0 ∨ d = 1 ∨ d = 2 ∨ d = 3 ∨ d = 4 ∨ d = 5 ∨ d = 6 ∨ d = 7
          ∨ d = 8 ∨ d = 9)%N as Hcases by lia.
  repeat destruct Hcases as [-> | Hcases]; try subst d; reflexivity.
Qed.

(** The rank of the [k]-th child is the last decimal digit of [k]. *)
Lemma process_rank_worker (comm : option Z) (e : env) (k : N) :
  process_rank comm (worker_name e k) false = Ok (Z.of_N (k `mod` 10)).
Proof.
  unfold process_rank, worker_name.
  rewrite last_char_app by apply pretty_neq_empty.
  rewrite last_char_pretty. simpl.
  apply int_of_char_digit. apply N.mod_lt. lia.
Qed.

Lemma generate_seed_worker (comm : option Z) (e : env) (k : N) (now : Z)
    (seed : option Z) :
  generate_seed comm (worker_name e k) now false seed
  = Ok (default now seed + Z.of_N (k `mod` 10)).
Proof.
  unfold generate_seed. rewrite process_rank_worker. by destruct seed.
Qed.


(** ** The pools *)

Section Properties.

Context {A B : Type}.
Implicit Types (w : world A B) (a : imap_args A B) (f : pyfunc A B).
Implicit Types (g : generator A B) (it : list (pyres B)) (s : list A).

Lemma collect_Ok (h : A -> B) s : collect ((fun x => Ok (h x)) <$> s) = Ok (h <$> s).
Proof. induction s as [|x s IH]; csimpl; [done|]. by rewrite IH. Qed.

(** The initializer succeeds in every worker the pool starts. *)
Lemma workers_initialised (m : module_state) (e : env)
    (registry : gmap Z (pyfunc A B)) (seed : option Z) (c : N) (j n : nat) :
  forallb initialised
    ((fun i => start_worker m e registry seed (c + 1 + N.of_nat i)%N) <$> seq j n)
  = true.
Proof.
  revert j. induction n as [|n IH]; intros j; csimpl; [done|].
  rewrite IH, andb_true_r.
  unfold initialised, start_worker; simpl. by rewrite generate_seed_worker.
Qed.

(** Whichever worker runs an item, the proxy resolves to the function the
    workers' registries hold under its key. *)
Lemma run_items_resolved (e : env) (workers : list (worker A B))
    (proxy : PicklableAndCallable A B) f (i : nat) s :
  workers ≠ [] ->
  func proxy = None ->
  Forall (fun wk => w_FUNCTIONS wk !! key proxy = Some f) workers ->
  run_items e workers proxy i s = fcall f <$> s.
Proof.
  intros Hne Hfunc Hreg. revert i.
  induction s as [|x s IH]; intros i; csimpl; [done|].
  rewrite IH. f_equal.
  unfold run_item.
  assert (schedule e i `mod` List.length workers < List.length workers)%nat as Hlt.
  { apply Nat.mod_upper_bound. destruct workers; simpl; [done|lia]. }
  destruct (lookup_lt_is_Some_2 _ _ Hlt) as [wk Hwk].
  rewrite Hwk.
  rewrite Forall_lookup in Hreg. specialize (Hreg _ _ Hwk).
  unfold PicklableAndCallable_call. by rewrite Hfunc, Hreg.
Qed.

(** ** Draining a generator *)

Lemma drain_suspended (m : module_state) (e : env) (b : backend) it
    (acc : list B) w (fuel : nat) :
  (List.length it < fuel)%nat ->
  drain fuel m e (GenSuspended b it) acc w
  = Some (shutdown b w,
          match collect it with
          | Ok l => Ok (acc ++ l)%list
          | Raise ex => Raise ex
          end).
Proof.
  revert fuel acc. induction it as [|r it IH]; intros fuel acc Hfuel.
  - destruct fuel; [simpl in Hfuel; lia|]. simpl. by rewrite app_nil_r.
  - destruct fuel; [simpl in Hfuel; lia|]. destruct r as [v|ex]; simpl; [|done].
    rewrite IH by (simpl in Hfuel; lia).
    destruct (collect it); [|done]. by rewrite <- app_assoc.
Qed.


Lemma run_items_length (e : env) (workers : list (worker A B))
    (proxy : PicklableAndCallable A B) (i : nat) s :
  List.length (run_items e workers proxy i s) = List.length s.
Proof. revert i. induction s as [|x s IH]; intros i; simpl; [done|]. by rewrite IH. Qed.

Lemma local_map_length (m : module_state) (e : env) (n : Z) (seed : option Z)
    (proxy : PicklableAndCallable A B) s w w1 it :
  local_map m e n seed proxy s w = (w1, Ok it) -> List.length it = List.length s.
Proof.
  unfold local_map. destruct s as [|x s]; [by intros [= <- <-]|].
  case_match; intros [= <- <-].
  - apply (run_items_length _ _ _ 0 (x :: s)).
  - apply (length_fmap _ (x :: s)).
Qed.

(** The iterator [executor.map] hands to the loop has one result per item. *)
Lemma imap_start_length (m : module_state) (e : env) a w w1 b it :
  imap_start m e a w = (w1, Ok (b, it)) -> List.length it = List.length (a_s a).
Proof.
  unfold imap_start, mbind, M_bind, py_assert, pool_ctor, set_function, mpi_map,
    warnings_warn, lift, ret, raise, emit.
  intros H.
  repeat (case_match; simplify_eq/=); try by rewrite length_fmap.
  all: eauto using local_map_length.
Qed.

(** [map] in one piece: the body up to the loop, then the results gathered
    until the iterator is exhausted or raises, then the [with] block's exit.
    In particular [list] never runs out of calls of [next]. *)
Lemma map_unfold (m : module_state) (e : env) a w :
  map m e a w =
  Some match imap_start m e a w with
       | (w1, Ok (b, it)) => (shutdown b w1, collect it)
       | (w1, Raise ex) => (w1, Raise ex)
       end.
Proof.
  unfold map, imap, ret, py_list. cbn [gen_fuel].
  destruct (imap_start m e a w) as [w1 [[b it]|ex]] eqn:Hstart.
  - pose proof (imap_start_length _ _ _ _ _ _ _ Hstart) as Hlen.
    transitivity (drain (S (S (List.length (a_s a)))) m e (GenSuspended b it) [] w1).
    { cbn [drain next]. by rewrite Hstart. }
    rewrite drain_suspended by lia. by destruct (collect it).
  - cbn [drain next]. by rewrite Hstart.
Qed.


(** ** The paths through the body of imap *)

Lemma or_default_local (e : env) a :
  or_default (a_max_workers a) (Ok (cpu_count e - 1)) = Ok (local_workers e a).
Proof.
  unfold or_default, local_workers, truthy.
  destruct (a_max_workers a) as [n|]; [|done]. by destruct (n =? 0).
Qed.

Lemma imap_start_invalid_policy (m : module_state) (e : env) a w :
  lower (a_if_serial a) ∉ policies ->
  imap_start m e a w = (w, Raise (invalid_choice (a_if_serial a))).
Proof.
  intros Hpol. unfold imap_start, mbind, M_bind, py_assert.
  by rewrite bool_decide_eq_false_2.
Qed.

Lemma imap_start_mpi_unavailable (m : module_state) (e : env) a w :
  lower (a_if_serial a) ∈ policies ->
  a_use_mpi a = true ->
  USING_MPI m = false ->
  imap_start m e a w = (w, Raise (RuntimeError (Some "Cannot use MPI"))).
Proof.
  intros Hpol Hmpi Hm. unfold imap_start, mbind, M_bind, py_assert.
  rewrite bool_decide_eq_true_2 by done. by rewrite Hmpi, Hm.
Qed.

Lemma imap_start_local_too_many (m : module_state) (e : env) a w :
  lower (a_if_serial a) ∈ policies ->
  a_use_mpi a = false ->
  cpu_count e <= local_workers e a ->
  imap_start m e a w = (w, Raise (AssertionError None)).
Proof.
  intros Hpol Hmpi Hn. unfold imap_start, mbind, M_bind, py_assert, lift.
  rewrite bool_decide_eq_true_2 by done. rewrite Hmpi, or_default_local.
  cbn. by rewrite (proj2 (Z.ltb_ge _ _) Hn).
Qed.

Lemma imap_start_local_nonpositive (m : module_state) (e : env) a w :
  lower (a_if_serial a) ∈ policies ->
  a_use_mpi a = false ->
  local_workers e a < cpu_count e ->
  local_workers e a <= 0 ->
  imap_start m e a w = (registered a w, Raise ValueError).
Proof.
  intros Hpol Hmpi Hlt Hle.
  unfold imap_start, mbind, M_bind, py_assert, lift, pool_ctor, registered.
  rewrite bool_decide_eq_true_2 by done. rewrite Hmpi, or_default_local.
  cbn. rewrite (proj2 (Z.ltb_lt _ _) Hlt). cbn.
  by rewrite (proj2 (Z.leb_le _ _) Hle).
Qed.

(** With a positive worker count, the local pool resolves the proxy in
    every worker and returns the function's results in the order of the
    items; the submitter's registry is not written again. *)
Lemma local_map_resolved (m : module_state) (e : env) (n : Z)
    (seed : option Z) f s w :
  0 < n ->
  _FUNCTIONS w !! fid f = Some f ->
  ∃ w1 started,
    local_map m e n seed (PicklableAndCallable_init (fid f)) s w
      = (w1, Ok (fcall f <$> s))
    ∧ _FUNCTIONS w1 = _FUNCTIONS w
    ∧ events w1 = (events w ++ started)%list.
Proof.
  intros Hn Hreg. unfold local_map. destruct s as [|x s].
  { exists w, []. by rewrite app_nil_r. }
  rewrite workers_initialised.
  eexists _, _. split_and!.
  - f_equal. f_equal.
    apply (run_items_resolved _ _ _ f 0 (x :: s)); [|done|].
    + destruct (Z.to_nat n) eqn:E; [lia|done].
    + apply Forall_fmap, Forall_forall. by intros i _.
  - reflexivity.
  - reflexivity.
Qed.

Lemma imap_start_local_ok (m : module_state) (e : env) a w :
  lower (a_if_serial a) ∈ policies ->
  a_use_mpi a = false ->
  0 < local_workers e a < cpu_count e ->
  ∃ w1 started,
    imap_start m e a w = (w1, Ok (LOCAL, fcall (a_f a) <$> a_s a))
    ∧ _FUNCTIONS w1 = <[fid (a_f a) := a_f a]> (_FUNCTIONS w)
    ∧ events w1
      = (events w ++ PoolCreated LOCAL (local_workers e a) :: started)%list.
Proof.
  intros Hpol Hmpi [Hpos Hlt].
  destruct (local_map_resolved m e (local_workers e a) (a_seed a) (a_f a) (a_s a)
              (fst (emit (PoolCreated LOCAL (local_workers e a)) (registered a w))))
    as (w1 & started & Hmap & Hfun & Hev); [done|apply lookup_insert_eq|].
  exists w1, started. split_and!.
  - unfold imap_start, mbind, M_bind, py_assert, lift, pool_ctor.
    rewrite bool_decide_eq_true_2 by done. rewrite Hmpi, or_default_local.
    cbn. rewrite (proj2 (Z.ltb_lt _ _) Hlt). cbn.
    rewrite (proj2 (Z.leb_gt _ _) Hpos). cbn.
    unfold registered in Hmap. cbn in Hmap. by rewrite Hmap.
  - by rewrite Hfun.
  - rewrite Hev. cbn. by rewrite <- app_assoc.
Qed.


(** ** Results in input order *)

(** C1. For a function that returns [h x] on every item and never raises,
    every finite sequence [s] and every worker count [k] with
    [1 <= k < cpu_count], [map(f, s, max_workers=k)] (local backend, policy
    'raise') returns [[h x for x in s]] in the order of [s], whatever the
    assignment of items to workers and whatever the registry held before. *)
Theorem map_pure_in_order (m : module_state) (e : env) w (h : A -> B)
    (id : Z) s (seed : option Z) (k : Z) :
  1 <= k < cpu_count e ->
  ∃ w', map m e {| a_f := {| fid := id; fcall := fun x => Ok (h x) |};
                   a_s := s; a_max_workers := Some k; a_use_mpi := false;
                   a_seed := seed; a_if_serial := "raise" |} w
        = Some (w', Ok (h <$> s)).
Proof.
  intros [Hk1 Hk2].
  set (a := {| a_f := _ |}).
  assert (local_workers e a = k) as Hn.
  { unfold local_workers; simpl. destruct (k =? 0) eqn:E; [lia|done]. }
  destruct (imap_start_local_ok m e a w) as (w1 & started & Hstart & _ & _).
  { unfold policies. simpl. set_solver. }
  { done. }
  { rewrite Hn. lia. }
  exists (shutdown LOCAL w1).
  rewrite map_unfold, Hstart. simpl. by rewrite collect_Ok.
Qed.

(** ** Validation *)

(** C2, amended. When the lower-cased policy is none of 'ignore', 'raise',
    'warn', [map] fails with the assertion error of line 102, and so does
    the first [next] on the generator [imap] returned; the world is the one
    before the call: no pool was created, no worker started, no registry
    entry written. *)
Theorem invalid_policy_fails_first (m : module_state) (e : env) a w :
  lower (a_if_serial a) ∉ policies ->
  map m e a w = Some (w, Raise (invalid_choice (a_if_serial a)))
  ∧ imap a w = (w, Ok (GenCreated a))
  ∧ next m e (GenCreated a) w
    = (w, Raised (invalid_choice (a_if_serial a)), GenFinished).
Proof.
  intros Hpol. split_and!.
  - by rewrite map_unfold, imap_start_invalid_policy.
  - done.
  - unfold next. by rewrite imap_start_invalid_policy.
Qed.




(** ** Serial execution under MPI *)

(** The module sets [USING_MPI] only when the universe does not report
    exactly one slot (lines 35-36 unbind [MPI] otherwise). *)
Lemma module_init_single_slot (e : env) (m : module_state) :
  module_init e = Ok m -> UNIVERSE_SIZE e = Some 1 -> USING_MPI m = false.
Proof.
  unfold module_init. intros Hinit Hu.
  rewrite bool_decide_eq_true_2 in Hinit by done.
  rewrite andb_false_r in Hinit. by simplify_eq.
Qed.

(** C3, as the code behaves. With exactly one slot in the universe the
    module leaves [USING_MPI] unset, so a call that asks for MPI fails with
    [RuntimeError('Cannot use MPI')] under each of the three policies: the
    guidance of lines 110-111 is never raised, nothing is warned, and the
    call never proceeds. *)
Theorem single_slot_always_fails (e : env) (m : module_state) a w :
  module_init e = Ok m ->
  UNIVERSE_SIZE e = Some 1 ->
  a_use_mpi a = true ->
  lower (a_if_serial a) ∈ policies ->
  map m e a w = Some (w, Raise (RuntimeError (Some "Cannot use MPI"))).
Proof.
  intros Hinit Hu Hmpi Hpol.
  rewrite map_unfold, imap_start_mpi_unavailable; [done..|].
  by eapply module_init_single_slot.
Qed.

(** The branch of lines 115-116, were it reached: the keyword [msg] is not
    one [warnings.warn] takes, so the call raises [TypeError] and nothing
    is warned. *)
Lemma serial_warn_raises (e : env) (m : module_state) a w :
  USING_MPI m = true ->
  UNIVERSE_SIZE e = Some 1 ->
  a_use_mpi a = true ->
  lower (a_if_serial a) = "warn" ->
  imap_start m e a w = (w, Raise TypeError).
Proof.
  intros Hm Hu Hmpi Hpol.
  unfold imap_start, mbind, M_bind, py_assert. rewrite Hpol, Hmpi, Hm, Hu.
  reflexivity.
Qed.

(** ** Seeds *)

(** Processes of one backend whose ranks, as lines 41-45 compute them, are
    pairwise distinct: with a base seed, the seed of each is the base seed
    plus that rank, and the seeds are pairwise distinct.  On the local
    backend such ranks are single digits, so this covers at most ten
    processes. *)
Theorem generate_seed_distinct (use_mpi : bool) (base : Z)
    (procs : list process) (ranks : list Z) :
  Forall2 (fun p r => process_rank (p_comm p) (p_name p) use_mpi = Ok r)
    procs ranks ->
  NoDup ranks ->
  (fun p => generate_seed (p_comm p) (p_name p) (p_now p) use_mpi (Some base))
    <$> procs
  = (fun r => Ok (base + r)) <$> ranks
  ∧ NoDup ((fun p => generate_seed (p_comm p) (p_name p) (p_now p) use_mpi
                       (Some base)) <$> procs).
Proof.
  intros Hranks Hnd.
  assert ((fun p => generate_seed (p_comm p) (p_name p) (p_now p) use_mpi
                      (Some base)) <$> procs
          = (fun r => Ok (base + r)) <$> ranks) as Heq.
  { clear Hnd. induction Hranks as [|p r procs ranks Hr _ IH]; csimpl; [done|].
    rewrite IH. f_equal. unfold generate_seed. by rewrite Hr. }
  split; [done|]. rewrite Heq.
  apply NoDup_fmap_2; [|done]. intros x y [= Hxy]. lia.
Qed.

(** C7, amended. [generate_seed] returns under MPI when [COMM] is bound,
    and on the local backend when the process name ends in a decimal digit;
    the rank is then the communicator's rank, respectively that digit.  It
    raises [NameError] under MPI when [COMM] is unbound, [IndexError] on an
    empty process name and [ValueError] on a name that ends in anything but
    a decimal digit; no rank is defaulted. *)
Theorem generate_seed_outcomes (comm : option Z) (r : Z) (name : string)
    (c : ascii) (now : Z) (seed : option Z) :
  generate_seed (Some r) name now true seed = Ok (default now seed + r)
  ∧ generate_seed None name now true seed = Raise (NameError "COMM")
  ∧ generate_seed comm "" now false seed = Raise IndexError
  ∧ generate_seed comm (name +:+ String c "") now false seed
    = if ((48 <=? N_of_ascii c) && (N_of_ascii c <=? 57))%N
      then Ok (default now seed + Z.of_N (N_of_ascii c - 48))
      else Raise ValueError.
Proof.
  split_and!.
  - unfold generate_seed; simpl. by destruct seed.
  - done.
  - done.
  - unfold generate_seed, process_rank.
    rewrite last_char_app by done. simpl. unfold int_of_char.
    destruct ((48 <=? N_of_ascii c) && (N_of_ascii c <=? 57))%N; simpl; [|done].
    by destruct seed.
Qed.


(** ** The registry *)

Lemma imap_start_mpi_registry (m : module_state) (e : env) a w :
  a_use_mpi a = true ->
  _FUNCTIONS (fst (imap_start m e a w)) = _FUNCTIONS w.
Proof.
  intros Hmpi.
  unfold imap_start, mbind, M_bind, py_assert, pool_ctor, mpi_map,
    warnings_warn, lift, ret, raise, emit.
  rewrite Hmpi. by repeat (case_match; simplify_eq/=).
Qed.

Lemma imap_start_registry (m : module_state) (e : env) a w :
  _FUNCTIONS (fst (imap_start m e a w))
  = if registers e a then <[fid (a_f a) := a_f a]> (_FUNCTIONS w)
    else _FUNCTIONS w.
Proof.
  unfold registers.
  destruct (decide (lower (a_if_serial a) ∈ policies)) as [Hpol|Hpol].
  2: { rewrite imap_start_invalid_policy by done.
       by rewrite bool_decide_eq_false_2. }
  rewrite bool_decide_eq_true_2 by done.
  destruct (a_use_mpi a) eqn:Hmpi; simpl.
  { by apply imap_start_mpi_registry. }
  destruct (local_workers e a <? cpu_count e) eqn:Hlt.
  - apply Z.ltb_lt in Hlt.
    destruct (decide (local_workers e a <= 0)) as [Hle|Hpos].
    + by rewrite imap_start_local_nonpositive.
    + destruct (imap_start_local_ok m e a w) as (w1 & ? & -> & Hreg & _);
        [done|done|lia|done].
  - apply Z.ltb_ge in Hlt. by rewrite imap_start_local_too_many.
Qed.

Lemma map_registry (m : module_state) (e : env) a w :
  ∃ w1 r, map m e a w = Some (w1, r)
  ∧ _FUNCTIONS w1
    = if registers e a then <[fid (a_f a) := a_f a]> (_FUNCTIONS w)
      else _FUNCTIONS w.
Proof.
  rewrite map_unfold. rewrite <- imap_start_registry with (m := m).
  destruct (imap_start m e a w) as [w1 [[b it]|ex]]; eauto.
Qed.

(** C6, amended. The entry line 130 writes is never removed.  After a call
    (returning or raising) the registry is the one before the call with the
    function stored under its identity, if the call was local and passed both
    assertions, and the one before the call otherwise.  A second call with
    the same function object writes the same entry again, so two calls leave
    at most that one entry behind. *)
Theorem registry_entry_kept (m : module_state) (e : env) a a' w :
  a_f a' = a_f a ->
  ∃ w1 r1 w2 r2,
    map m e a w = Some (w1, r1)
    ∧ map m e a' w1 = Some (w2, r2)
    ∧ _FUNCTIONS w1
      = (if registers e a then <[fid (a_f a) := a_f a]> (_FUNCTIONS w)
         else _FUNCTIONS w)
    ∧ _FUNCTIONS w2
      = (if registers e a || registers e a'
         then <[fid (a_f a) := a_f a]> (_FUNCTIONS w)
         else _FUNCTIONS w).
Proof.
  intros Hf.
  destruct (map_registry m e a w) as (w1 & r1 & Hmap1 & Hreg1).
  destruct (map_registry m e a' w1) as (w2 & r2 & Hmap2 & Hreg2).
  exists w1, r1, w2, r2. split_and!; [done..|].
  rewrite Hreg2, Hreg1, Hf.
  destruct (registers e a), (registers e a'); simpl; [|done..].
  by rewrite insert_insert_eq.
Qed.


(** ** Laziness of imap *)

(** C9. Calling [imap] returns a generator whose body has not started and
    leaves the world as it is.  Whatever the body raises before its first
    [yield] is raised by the first [next], and [map] raises the same at its
    call; otherwise [map] returns what the generator yields.  In particular
    the three failures of validation surface that way, in the world before
    the call. *)
Theorem imap_is_lazy (m : module_state) (e : env) a w :
  imap a w = (w, Ok (GenCreated a))
  ∧ match imap_start m e a w with
    | (w1, Raise ex) =>
        next m e (GenCreated a) w = (w1, Raised ex, GenFinished)
        ∧ map m e a w = Some (w1, Raise ex)
    | (w1, Ok (b, it)) =>
        next m e (GenCreated a) w = imap_resume b it w1
        ∧ map m e a w = Some (shutdown b w1, collect it)
    end
  ∧ match precondition_failure m e a with
    | Some ex =>
        next m e (GenCreated a) w = (w, Raised ex, GenFinished)
        ∧ map m e a w = Some (w, Raise ex)
    | None => True
    end.
Proof.
  split_and!.
  - done.
  - rewrite map_unfold. unfold next.
    by destruct (imap_start m e a w) as [w1 [[b it]|ex]].
  - rewrite map_unfold. unfold next, precondition_failure.
    destruct (decide (lower (a_if_serial a) ∈ policies)) as [Hpol|Hpol].
    2: { rewrite bool_decide_eq_false_2 by done.
         by rewrite imap_start_invalid_policy. }
    rewrite bool_decide_eq_true_2 by done.
    destruct (a_use_mpi a) eqn:Hmpi.
    + destruct (USING_MPI m) eqn:Hm; [done|].
      by rewrite imap_start_mpi_unavailable.
    + destruct (local_workers e a <? cpu_count e) eqn:Hlt; [done|].
      apply Z.ltb_ge in Hlt. by rewrite imap_start_local_too_many.
Qed.

(** ** A worker count of zero *)

Lemma or_default_falsy (max_workers : option Z) (dflt : pyres Z) :
  truthy max_workers = false -> or_default max_workers dflt = dflt.
Proof. unfold or_default. intros ->. by destruct max_workers. Qed.





End Properties.

(** * The properties on the concrete machine *)

(** [map(double, [1, 2, 3], max_workers=2)] on four CPUs. *)
Lemma map_pure_in_order_witness :
  1 <= 2 < cpu_count demo_env
  ∧ ∃ w', map demo_module demo_env (demo_call double (Some 2) false "raise")
            empty_world
          = Some (w', Ok [2; 4; 6]).
Proof.
  split; [simpl; lia|].
  apply (map_pure_in_order demo_module demo_env empty_world (fun x => 2 * x) 77
           [1; 2; 3] None 2).
  simpl; lia.
Defined.

(** What that call leaves behind: the pool, its two workers with the seeds
    [clock + rank], the shutdown, and the registry entry. *)
Example map_double_trace :
  ∃ w', map demo_module demo_env (demo_call double (Some 2) false "raise")
          empty_world
        = Some (w', Ok [2; 4; 6])
  ∧ events w' = [PoolCreated LOCAL 2;
                 WorkerStarted "ForkProcess-1" (Ok 1001);
                 WorkerStarted "ForkProcess-2" (Ok 1002);
                 PoolShutdown LOCAL]
  ∧ fcall <$> (_FUNCTIONS w' !! 77) = Some (fcall double).
Proof. eexists. split_and!; vm_compute; reflexivity. Qed.

(** C2, counterexample. The policy 'RAISE' is none of the three recognised
    spellings, and the call returns its results. *)
Lemma uppercase_policy_accepted :
  ("RAISE" ∉ ["raise"; "warn"; "ignore"])
  ∧ ∃ w', map demo_module demo_env (demo_call double (Some 2) false "RAISE")
            empty_world
          = Some (w', Ok [2; 4; 6]).
Proof.
  split.
  - rewrite !elem_of_cons, elem_of_nil. intros [?|[?|[?|[]]]]; discriminate.
  - eexists. vm_compute. reflexivity.
Qed.

Lemma invalid_policy_fails_first_witness :
  (lower "bogus" ∉ policies)
  ∧ map demo_module demo_env (demo_call double None false "bogus") empty_world
    = Some (empty_world, Raise (AssertionError (Some "invalid choice 'bogus'")))
  ∧ imap (demo_call double None false "bogus") empty_world
    = (empty_world, Ok (GenCreated (demo_call double None false "bogus")))
  ∧ next demo_module demo_env (GenCreated (demo_call double None false "bogus"))
      empty_world
    = (empty_world, Raised (AssertionError (Some "invalid choice 'bogus'")),
       GenFinished).
Proof.
  assert (lower "bogus" ∉ policies) as Hpol.
  { unfold policies. simpl.
    rewrite !elem_of_cons, elem_of_nil. intros [?|[?|[?|[]]]]; discriminate. }
  split; [exact Hpol|].
  exact (invalid_policy_fails_first demo_module demo_env
           (demo_call double None false "bogus") empty_world Hpol).
Defined.


(** C3, at the failing input: one slot in the universe, MPI asked for,
    policy 'ignore'.  The module initialises without [USING_MPI] and the call
    raises instead of proceeding. *)
Lemma single_slot_always_fails_witness :
  module_init single_slot_env = Ok single_slot_module
  ∧ UNIVERSE_SIZE single_slot_env = Some 1
  ∧ map single_slot_module single_slot_env (demo_call double None true "ignore")
      empty_world
    = Some (empty_world, Raise (RuntimeError (Some "Cannot use MPI"))).
Proof.
  split; [reflexivity|]. split; [reflexivity|].
  apply (single_slot_always_fails single_slot_env single_slot_module
           (demo_call double None true "ignore") empty_world);
    [reflexivity|reflexivity|reflexivity|].
  unfold policies. simpl. apply elem_of_cons. by left.
Defined.

(** The same under 'warn' and under 'raise': no warning, no guidance. *)
Example single_slot_warn_and_raise :
  map single_slot_module single_slot_env (demo_call double None true "warn")
    empty_world
  = Some (empty_world, Raise (RuntimeError (Some "Cannot use MPI")))
  ∧ map single_slot_module single_slot_env (demo_call double None true "raise")
      empty_world
    = Some (empty_world, Raise (RuntimeError (Some "Cannot use MPI"))).
Proof. split; vm_compute; reflexivity. Qed.

(** Three children of one pool, ranks 0, 1 and 2, base seed 42. *)
Lemma generate_seed_distinct_witness :
  let procs := [ {| p_comm := None; p_name := "ForkProcess-10"; p_now := 1000 |};
                 {| p_comm := None; p_name := "ForkProcess-1"; p_now := 1000 |};
                 {| p_comm := None; p_name := "ForkProcess-2"; p_now := 1001 |} ] in
  (fun p => generate_seed (p_comm p) (p_name p) (p_now p) false (Some 42)) <$> procs
  = [Ok 42; Ok 43; Ok 44]
  ∧ NoDup ((fun p => generate_seed (p_comm p) (p_name p) (p_now p) false (Some 42))
             <$> procs).
Proof.
  intros procs.
  apply (generate_seed_distinct false 42 procs [0; 1; 2]).
  - repeat constructor.
  - repeat (apply NoDup_cons; split;
            [rewrite ?elem_of_cons, elem_of_nil; intros H;
             repeat destruct H as [H|H]; (discriminate || done)|]).
    apply NoDup_nil_2.
Defined.

(** The rank of a child is the last digit of its number, so the first and
    the eleventh child of a process share a rank and, with a base seed, a
    seed. *)
Example eleventh_child_shares_seed :
  generate_seed None (worker_name demo_env 1) 1000 false (Some 42)
  = generate_seed None (worker_name demo_env 11) 1000 false (Some 42).
Proof. by rewrite !generate_seed_worker. Qed.



(** A negative count passes the assertion and is refused by the pool. *)
Example negative_workers_refused_by_pool :
  ∃ w', map demo_module demo_env (demo_call double (Some (-1)) false "raise")
          empty_world
        = Some (w', Raise ValueError)
        ∧ events w' = [].
Proof. eexists. split; vm_compute; reflexivity. Qed.


(** C6, counterexample. The registry is empty before the call and holds one
    entry after it, when the call returns and when the mapped function
    raises. *)
Lemma registry_entry_leaks :
  size (_FUNCTIONS empty_world) = 0%nat
  ∧ (∃ w', map demo_module demo_env (demo_call double (Some 2) false "raise")
             empty_world
           = Some (w', Ok [2; 4; 6])
         ∧ size (_FUNCTIONS w') = 1%nat)
  ∧ (∃ w', map demo_module demo_env (demo_call picky (Some 2) false "raise")
             empty_world
           = Some (w', Raise (UserError 2))
         ∧ size (_FUNCTIONS w') = 1%nat).
Proof.
  split; [reflexivity|].
  split; eexists; (split; [vm_compute; reflexivity|]); vm_compute; reflexivity.
Qed.

(** Two calls with [double], the second with another worker count. *)
Lemma registry_entry_kept_witness :
  a_f (demo_call double (Some 3) false "warn")
  = a_f (demo_call double (Some 2) false "raise")
  ∧ ∃ w1 r1 w2 r2,
      map demo_module demo_env (demo_call double (Some 2) false "raise") empty_world
      = Some (w1, r1)
      ∧ map demo_module demo_env (demo_call double (Some 3) false "warn") w1
        = Some (w2, r2)
      ∧ _FUNCTIONS w1 = <[77 := double]> ∅
      ∧ _FUNCTIONS w2 = <[77 := double]> ∅.
Proof.
  split; [reflexivity|].
  exact (registry_entry_kept demo_module demo_env
           (demo_call double (Some 2) false "raise")
           (demo_call double (Some 3) false "warn") empty_world eq_refl).
Defined.

(** C7, counterexample. In a process named 'MainProcess' the local rank is
    [int('s')]: the call raises, and no seed [5 + 0] is stored. *)
Lemma generate_seed_main_process_raises :
  generate_seed None "MainProcess" 1000 false (Some 5) = Raise ValueError
  ∧ generate_seed None "MainProcess" 1000 false (Some 5) ≠ Ok (5 + 0).
Proof. split; [reflexivity|discriminate]. Qed.



(** C9 on the concrete machine: the call of [imap] with five workers on
    four CPUs returns a generator; the assertion fails at the first [next]. *)
Example imap_defers_worker_count :
  imap (demo_call double (Some 5) false "raise") empty_world
  = (empty_world, Ok (GenCreated (demo_call double (Some 5) false "raise")))
  ∧ next demo_module demo_env
      (GenCreated (demo_call double (Some 5) false "raise")) empty_world
    = (empty_world, Raised (AssertionError None), GenFinished).
Proof. split; reflexivity. Qed.



(** * Further properties of the module *)

(** ** Import time (lines 24-56) *)

Lemma module_init_using_mpi (e : env) (m : module_state) :
  module_init e = Ok m ->
  USING_MPI m = true ->
  env_flag (DONT_USE_MPI e) = false
  ∧ mpi4py_importable e = true
  ∧ UNIVERSE_SIZE e ≠ Some 1.
Proof.
  unfold module_init. intros Hinit Hm.
  destruct (env_flag (DONT_USE_MPI e)), (mpi4py_importable e); simpl in Hinit;
    try (by simplify_eq/=).
  destruct (decide (UNIVERSE_SIZE e = Some 1)) as [Hu|Hu]; [|by split_and!].
  rewrite bool_decide_eq_true_2 in Hinit by done. by simplify_eq/=.
Qed.

(** X1. Once the module is imported, [USING_MPI] is set exactly when
    [DONT_USE_MPI] is unset or empty, [mpi4py] imports, and the universe
    does not report exactly one slot; [MPI is not None] says the same. *)
Theorem using_mpi_iff (e : env) (m : module_state) :
  module_init e = Ok m ->
  (USING_MPI m = true
   ↔ env_flag (DONT_USE_MPI e) = false
     ∧ mpi4py_importable e = true
     ∧ UNIVERSE_SIZE e ≠ Some 1)
  ∧ MPI m = USING_MPI m.
Proof.
  intros Hinit. split; [split|].
  - by apply module_init_using_mpi.
  - intros (Hflag & Himp & Hu). unfold module_init in Hinit.
    rewrite Hflag, Himp in Hinit. simpl in Hinit.
    rewrite bool_decide_eq_false_2 in Hinit by done. simpl in Hinit.
    destruct (1 <? COMM_size e); by simplify_eq.
  - unfold module_init in Hinit.
    repeat (case_match; simplify_eq/=); done.
Qed.

(** X2. Importing the module raises exactly when MPI stays enabled and the
    communicator has more than one process, and what it raises is the
    [NameError] of the unbound name [seed] of line 53. *)
Theorem module_init_raises_iff (e : env) (ex : exn) :
  module_init e = Raise ex
  ↔ ex = NameError "seed"
    ∧ env_flag (DONT_USE_MPI e) = false
    ∧ mpi4py_importable e = true
    ∧ UNIVERSE_SIZE e ≠ Some 1
    ∧ 1 < COMM_size e.
Proof.
  unfold module_init. split.
  - intros Hinit.
    destruct (env_flag (DONT_USE_MPI e)), (mpi4py_importable e); simpl in Hinit;
      try discriminate.
    destruct (decide (UNIVERSE_SIZE e = Some 1)) as [Hu|Hu].
    { rewrite bool_decide_eq_true_2 in Hinit by done. discriminate. }
    rewrite bool_decide_eq_false_2 in Hinit by done. simpl in Hinit.
    destruct (1 <? COMM_size e) eqn:Hsize; [|discriminate].
    apply Z.ltb_lt in Hsize. by simplify_eq.
  - intros (-> & -> & -> & Hu & Hsize). simpl.
    rewrite bool_decide_eq_false_2 by done. simpl.
    by rewrite (proj2 (Z.ltb_lt _ _) Hsize).
Qed.

(** X3. Any non-empty value of [DONT_USE_MPI], '0' included, switches MPI
    off: the import succeeds whatever the communicator, [COMM] stays
    unbound and [USING_MPI] is unset. *)
Theorem dont_use_mpi_disables (e : env) (v : string) :
  DONT_USE_MPI e = Some v ->
  v ≠ "" ->
  module_init e = Ok {| MPI := false; COMM := None; USING_MPI := false |}.
Proof.
  intros Hv Hne. unfold module_init, env_flag. rewrite Hv.
  destruct (String.eqb_spec v ""); done.
Qed.

(** ** Ranks and seeds of local workers (lines 44-49) *)

(** X4. On the local backend a rank is a single digit: whenever
    [generate_seed] finds a rank for a process name, it lies in 0..9. *)
Theorem local_rank_is_digit (comm : option Z) (name : string) (r : Z) :
  process_rank comm name false = Ok r -> 0 <= r <= 9.
Proof.
  unfold process_rank. destruct (last_char name) as [c|]; simpl; [|done].
  unfold int_of_char.
  destruct ((48 <=? N_of_ascii c) && (N_of_ascii c <=? 57))%N eqn:E; [|done].
  intros [= <-]. apply andb_true_iff in E as [H1 H2].
  apply N.leb_le in H1, H2. lia.
Qed.

(** X5. The seed of a pool worker depends on its number through the last
    decimal digit only: the [k]-th and the [k + 10]-th child of a process
    get the same seed, with a base seed and without. *)
Theorem worker_seed_period (comm : option Z) (e : env) (k : N) (now : Z)
    (seed : option Z) :
  generate_seed comm (worker_name e k) now false seed
  = generate_seed comm (worker_name e (k + 10)) now false seed
  ∧ generate_seed comm (worker_name e k) now false seed
    = Ok (default now seed + Z.of_N (k `mod` 10)).
Proof.
  rewrite !generate_seed_worker. split; [|done].
  do 3 f_equal. rewrite <- (N.Div0.add_mod_idemp_r k 10 10).
  rewrite N.Div0.mod_same. by rewrite N.add_0_r.
Qed.

(** ** The policy's spelling (line 101) *)

Lemma lower_char_idemp (c : ascii) : lower_char (lower_char c) = lower_char c.
Proof. by destruct c as [[] [] [] [] [] [] [] []]. Qed.

Lemma lower_idemp (s : string) : lower (lower s) = lower s.
Proof.
  induction s as [|c s IH]; simpl; [done|]. by rewrite lower_char_idemp, IH.
Qed.


Section MoreProperties.

Context {A B : Type}.
Implicit Types (w : world A B) (a : imap_args A B) (f : pyfunc A B).
Implicit Types (g : generator A B) (it : list (pyres B)) (s : list A).
Implicit Types (p : PicklableAndCallable A B) (registry : gmap Z (pyfunc A B)).

(** ** The proxy and the registry (lines 59-74, 129-131) *)

(** X6. A proxy that resolved its key once keeps the function: later calls
    of that proxy run the same function whatever the registry of the
    process holds by then, an empty one included. *)
Theorem proxy_caches_function registry p f (x : A) :
  func p = None ->
  registry !! key p = Some f ->
  snd (PicklableAndCallable_call registry p x) = fcall f x
  ∧ ∀ registry' (y : A),
      PicklableAndCallable_call registry'
        (fst (PicklableAndCallable_call registry p x)) y
      = (fst (PicklableAndCallable_call registry p x), fcall f y).
Proof.
  intros Hfunc Hkey. unfold PicklableAndCallable_call at 1 3 4.
  rewrite Hfunc, Hkey. simpl. split; [done|]. intros registry' y.
  reflexivity.
Qed.

(** X7. A proxy whose key is not in the registry raises the bare
    [RuntimeError] without running anything and stays unresolved: the same
    proxy calls the function in a process whose registry has the key. *)
Theorem proxy_missing_key registry p (x : A) :
  func p = None ->
  registry !! key p = None ->
  PicklableAndCallable_call registry p x = (p, Raise (RuntimeError None))
  ∧ ∀ registry' f (y : A), registry' !! key p = Some f ->
      snd (PicklableAndCallable_call registry'
             (fst (PicklableAndCallable_call registry p x)) y)
      = fcall f y.
Proof.
  intros Hfunc Hkey. unfold PicklableAndCallable_call at 1 3.
  rewrite Hfunc, Hkey. simpl. split; [done|]. intros registry' f y Hkey'.
  unfold PicklableAndCallable_call. by rewrite Hfunc, Hkey'.
Qed.

(** X8. What line 130 stores, a fresh proxy for the same identity finds;
    storing another function under that identity replaces the first without
    notice, and the proxy then runs the second. *)
Theorem registry_round_trip w f (f' : pyfunc A B) (x : A) :
  fid f' = fid f ->
  snd (PicklableAndCallable_call
         (_FUNCTIONS (fst (set_function (fid f) f w)))
         (PicklableAndCallable_init (fid f)) x)
  = fcall f x
  ∧ snd (PicklableAndCallable_call
           (_FUNCTIONS (fst (set_function (fid f') f'
                               (fst (set_function (fid f) f w)))))
           (PicklableAndCallable_init (fid f)) x)
    = fcall f' x.
Proof.
  intros Hid. unfold PicklableAndCallable_call, set_function. simpl.
  rewrite lookup_insert_eq. split; [done|].
  by rewrite Hid, lookup_insert_eq.
Qed.

(** X9. A call changes no entry of the registry but the one of its own
    function, and never removes one: the registry grows by at most one
    entry. *)
Theorem registry_frame (m : module_state) (e : env) a w :
  ∃ w' r, map m e a w = Some (w', r)
  ∧ (∀ k, k ≠ fid (a_f a) -> _FUNCTIONS w' !! k = _FUNCTIONS w !! k)
  ∧ (∀ k, is_Some (_FUNCTIONS w !! k) -> is_Some (_FUNCTIONS w' !! k))
  ∧ (size (_FUNCTIONS w) <= size (_FUNCTIONS w') <= S (size (_FUNCTIONS w)))%nat.
Proof.
  destruct (map_registry m e a w) as (w' & r & Hmap & Hreg).
  exists w', r. split; [done|]. rewrite Hreg.
  destruct (registers e a); [|split_and!; (done || lia)].
  split_and!.
  - intros k Hk. by rewrite lookup_insert_ne.
  - intros k Hk. destruct (decide (k = fid (a_f a))) as [->|Hne].
    + rewrite lookup_insert_eq. by eexists.
    + by rewrite lookup_insert_ne.
  - destruct (_FUNCTIONS w !! fid (a_f a)) eqn:E.
    + rewrite map_size_insert_Some by eauto. lia.
    + rewrite map_size_insert_None by done. lia.
  - destruct (_FUNCTIONS w !! fid (a_f a)) eqn:E.
    + rewrite map_size_insert_Some by eauto. lia.
    + rewrite map_size_insert_None by done. lia.
Qed.


(** ** Pools and workers of a local call (lines 126-136) *)

Lemma started_workers (m : module_state) (e : env) registry
    (seed : option Z) (c : N) (n : nat) :
  (fun wk : worker A B => WorkerStarted (w_name wk) (w_random_seed wk)) <$>
    ((fun i => start_worker m e registry seed (c + 1 + N.of_nat i)%N) <$> seq 0 n)
  = worker_starts e seed c n.
Proof.
  unfold worker_starts. rewrite <- list_fmap_compose.
  apply list_fmap_ext. intros i k _. simpl. by rewrite generate_seed_worker.
Qed.

Lemma imap_start_local_world (m : module_state) (e : env) a w :
  lower (a_if_serial a) ∈ policies ->
  a_use_mpi a = false ->
  0 < local_workers e a < cpu_count e ->
  imap_start m e a w
  = (match a_s a with
     | [] =>
         {| _FUNCTIONS := <[fid (a_f a) := a_f a]> (_FUNCTIONS w);
            process_counter := process_counter w;
            events := events w ++ [PoolCreated LOCAL (local_workers e a)] |}
     | _ :: _ =>
         {| _FUNCTIONS := <[fid (a_f a) := a_f a]> (_FUNCTIONS w);
            process_counter :=
              (process_counter w + N.of_nat (Z.to_nat (local_workers e a)))%N;
            events := events w ++ PoolCreated LOCAL (local_workers e a)
                      :: worker_starts e (a_seed a) (process_counter w)
                           (Z.to_nat (local_workers e a)) |}
     end,
     Ok (LOCAL, fcall (a_f a) <$> a_s a)).
Proof.
  intros Hpol Hmpi [Hpos Hlt].
  unfold imap_start, mbind, M_bind, py_assert, lift, pool_ctor.
  rewrite bool_decide_eq_true_2 by done. rewrite Hmpi, or_default_local.
  cbn. rewrite (proj2 (Z.ltb_lt _ _) Hlt). cbn.
  rewrite (proj2 (Z.leb_gt _ _) Hpos). cbn.
  unfold local_map. destruct (a_s a) as [|x s] eqn:Hs; [done|].
  cbn [_FUNCTIONS process_counter events].
  rewrite workers_initialised, started_workers. unfold ret.
  rewrite <- app_assoc.
  rewrite (run_items_resolved _ _ _ (a_f a) 0 (x :: s)); [done| |done|].
  - destruct (Z.to_nat (local_workers e a)) eqn:E; [lia|done].
  - apply Forall_fmap, Forall_forall. intros i _. simpl. apply lookup_insert_eq.
Qed.

(** X10. An empty input on the local backend: the function is registered,
    the pool is created and shut down, no worker process is started, and
    the result is the empty list. *)
Theorem map_empty_input (m : module_state) (e : env) a w :
  lower (a_if_serial a) ∈ policies ->
  a_use_mpi a = false ->
  0 < local_workers e a < cpu_count e ->
  a_s a = [] ->
  ∃ w', map m e a w = Some (w', Ok [])
  ∧ events w' = (events w ++ [PoolCreated LOCAL (local_workers e a);
                              PoolShutdown LOCAL])%list
  ∧ process_counter w' = process_counter w
  ∧ _FUNCTIONS w' = <[fid (a_f a) := a_f a]> (_FUNCTIONS w).
Proof.
  intros Hpol Hmpi Hn Hs.
  eexists. rewrite map_unfold, imap_start_local_world by done.
  rewrite Hs. split; [reflexivity|]. cbn. by rewrite <- app_assoc.
Qed.

(** X11. A non-empty input on the local backend starts exactly
    [max_workers] children, numbered on from those the process created
    before, each seeded with the base seed (the clock when there is none)
    plus the last digit of its number; the pool is shut down after them,
    whether the function returned on every item or raised. *)
Theorem map_starts_workers (m : module_state) (e : env) a w :
  lower (a_if_serial a) ∈ policies ->
  a_use_mpi a = false ->
  0 < local_workers e a < cpu_count e ->
  a_s a ≠ [] ->
  ∃ w', map m e a w = Some (w', collect (fcall (a_f a) <$> a_s a))
  ∧ events w'
    = (events w ++ PoolCreated LOCAL (local_workers e a)
       :: worker_starts e (a_seed a) (process_counter w)
            (Z.to_nat (local_workers e a))
       ++ [PoolShutdown LOCAL])%list
  ∧ process_counter w'
    = (process_counter w + Z.to_N (local_workers e a))%N.
Proof.
  intros Hpol Hmpi Hn Hs.
  eexists. rewrite map_unfold, imap_start_local_world by done.
  destruct (a_s a) as [|x s]; [done|].
  split; [reflexivity|]. cbn. split.
  - by rewrite <- app_assoc.
  - lia.
Qed.


(** ** The generator, one [next] at a time (lines 123-124, 135-136) *)

Lemma advance_yields (m : module_state) (e : env) (b : backend)
    (vs : list B) it w (k : nat) :
  advance (List.length vs + k) m e (GenSuspended b ((Ok <$> vs) ++ it)) w
  = match advance k m e (GenSuspended b it) w with
    | (w2, sts, g2) => (w2, ((Yielded <$> vs) ++ sts)%list, g2)
    end.
Proof.
  induction vs as [|v vs IH]; csimpl.
  - by destruct (advance k m e (GenSuspended b it) w) as [[??]?].
  - rewrite IH. by destruct (advance k m e (GenSuspended b it) w) as [[??]?].
Qed.

Lemma advance_created (m : module_state) (e : env) a w w1 (b : backend) it
    (n : nat) :
  imap_start m e a w = (w1, Ok (b, it)) ->
  advance (S n) m e (GenCreated a) w = advance (S n) m e (GenSuspended b it) w1.
Proof. intros Hstart. cbn [advance next]. by rewrite Hstart. Qed.

Lemma collect_raise (vs : list B) (ex : exn) it :
  collect ((Ok <$> vs) ++ Raise ex :: it) = Raise ex.
Proof. induction vs as [|v vs IH]; csimpl; [done|]. by rewrite IH. Qed.

Lemma collect_oks (vs : list B) : collect (Ok <$> vs) = Ok vs.
Proof. induction vs as [|v vs IH]; csimpl; [done|]. by rewrite IH. Qed.

(** X12. On the local backend, while the function returns, the generator
    yields the results one [next] at a time in the order of the items, in
    the world the first [next] left: the pool stays open as long as the
    generator is suspended.  The [next] after the last item stops the
    iteration and shuts the pool down; [list] on the suspended generator
    returns the results of the items that are left. *)
Theorem imap_yields_in_order (m : module_state) (e : env) a w (h : A -> B)
    (s1 s2 : list A) :
  lower (a_if_serial a) ∈ policies ->
  a_use_mpi a = false ->
  0 < local_workers e a < cpu_count e ->
  a_s a = (s1 ++ s2)%list ->
  s1 ≠ [] ->
  Forall (fun x => fcall (a_f a) x = Ok (h x)) (a_s a) ->
  advance (List.length s1) m e (GenCreated a) w
  = (fst (imap_start m e a w), Yielded ∘ h <$> s1,
     GenSuspended LOCAL (Ok ∘ h <$> s2))
  ∧ advance (S (List.length (a_s a))) m e (GenCreated a) w
    = (shutdown LOCAL (fst (imap_start m e a w)),
       ((Yielded ∘ h <$> a_s a) ++ [StopIteration])%list, GenFinished)
  ∧ py_list m e (GenSuspended LOCAL (Ok ∘ h <$> s2)) (fst (imap_start m e a w))
    = Some (shutdown LOCAL (fst (imap_start m e a w)), Ok (h <$> s2)).
Proof.
  intros Hpol Hmpi Hn Hs Hne Hok.
  pose proof (imap_start_local_world m e a w Hpol Hmpi Hn) as Hstart.
  apply Forall_fmap_ext in Hok. rewrite Hok in Hstart.
  set (w1 := fst (imap_start m e a w)).
  assert (imap_start m e a w = (w1, Ok (LOCAL, Ok ∘ h <$> a_s a))) as Hw1.
  { unfold w1. by rewrite Hstart. }
  clear Hstart. split_and!.
  - destruct s1 as [|x s1]; [done|]. cbn [List.length].
    rewrite (advance_created _ _ _ _ _ _ _ _ Hw1), Hs.
    rewrite fmap_app, (list_fmap_compose h Ok (x :: s1)).
    replace (S (List.length s1))
      with (List.length (h <$> x :: s1) + 0)%nat
      by (rewrite length_fmap; simpl; lia).
    rewrite advance_yields. cbn [advance].
    by rewrite app_nil_r, <- list_fmap_compose.
  - rewrite (advance_created _ _ _ _ _ _ _ _ Hw1).
    rewrite (list_fmap_compose h Ok (a_s a)).
    rewrite <- (app_nil_r (Ok <$> (h <$> a_s a))).
    replace (S (List.length (a_s a)))
      with (List.length (h <$> a_s a) + 1)%nat
      by (rewrite length_fmap; lia).
    rewrite advance_yields. cbn.
    by rewrite <- list_fmap_compose.
  - unfold py_list. cbn [gen_fuel].
    rewrite drain_suspended by lia.
    by rewrite (list_fmap_compose h Ok s2), collect_oks.
Qed.

(** X13. When the function raises on an item, on the local backend, the
    generator yields the results of the items before it, then raises that
    exception and is finished, the pool shut down; [map] raises the same
    exception and returns none of the earlier results. *)
Theorem imap_raises_in_order (m : module_state) (e : env) a w (h : A -> B)
    (s1 s2 : list A) (x : A) (ex : exn) :
  lower (a_if_serial a) ∈ policies ->
  a_use_mpi a = false ->
  0 < local_workers e a < cpu_count e ->
  a_s a = (s1 ++ x :: s2)%list ->
  Forall (fun y => fcall (a_f a) y = Ok (h y)) s1 ->
  fcall (a_f a) x = Raise ex ->
  advance (S (List.length s1)) m e (GenCreated a) w
  = (shutdown LOCAL (fst (imap_start m e a w)),
     ((Yielded ∘ h <$> s1) ++ [Raised ex])%list, GenFinished)
  ∧ map m e a w = Some (shutdown LOCAL (fst (imap_start m e a w)), Raise ex).
Proof.
  intros Hpol Hmpi Hn Hs Hok Hex.
  pose proof (imap_start_local_world m e a w Hpol Hmpi Hn) as Hstart.
  apply Forall_fmap_ext in Hok.
  rewrite Hs, fmap_app, Hok, fmap_cons, Hex in Hstart.
  assert ((fun y => Ok (h y)) <$> s1 = Ok <$> (h <$> s1)) as Hc
    by apply (list_fmap_compose h Ok s1).
  rewrite Hc in Hstart. clear Hc.
  set (w1 := fst (imap_start m e a w)).
  assert (imap_start m e a w
          = (w1, Ok (LOCAL, (Ok <$> (h <$> s1)) ++ Raise ex
                              :: (fcall (a_f a) <$> s2)))%list) as Hw1.
  { unfold w1. by rewrite Hstart. }
  clear Hstart. split.
  - rewrite (advance_created _ _ _ _ _ _ _ _ Hw1).
    replace (S (List.length s1))
      with (List.length (h <$> s1) + 1)%nat
      by (rewrite length_fmap; lia).
    rewrite advance_yields. cbn.
    by rewrite <- list_fmap_compose.
  - rewrite map_unfold, Hw1. by rewrite collect_raise.
Qed.

(** X14. A generator that stopped or raised is finished for good: every
    later [next] stops the iteration and touches nothing, so the pool is
    shut down once. *)
Theorem finished_stays_finished (m : module_state) (e : env) g w w1
    (st : step B) g1 :
  next m e g w = (w1, st, g1) ->
  (∀ v, st ≠ Yielded v) ->
  g1 = GenFinished
  ∧ ∀ (n : nat) w2,
      advance n m e g1 w2 = (w2, replicate n StopIteration, g1).
Proof.
  intros Hnext Hst.
  assert (g1 = GenFinished) as ->.
  { unfold next, imap_resume in Hnext.
    repeat (case_match; simplify_eq/=); try done; by edestruct Hst. }
  split; [done|]. intros n. induction n as [|n IH]; intros w2; [done|].
  cbn [advance next]. by rewrite IH.
Qed.


(** ** What a call leaves in the world *)

Lemma worker_starts_are_starts (e : env) (seed : option Z) (c : N) (n : nat) :
  forallb is_worker_start (worker_starts e seed c n) = true.
Proof.
  unfold worker_starts. generalize 0%nat.
  induction n as [|n IH]; intros j; csimpl; [done|]. apply IH.
Qed.

Lemma imap_start_mpi_events (m : module_state) (e : env) a w :
  a_use_mpi a = true ->
  match imap_start m e a w with
  | (w1, Ok (b, it)) =>
      b = DISTRIBUTED
      ∧ ∃ n, events w1 = (events w ++ [PoolCreated DISTRIBUTED n])%list
  | (w1, Raise _) => events w1 = events w
  end.
Proof.
  intros Hmpi.
  unfold imap_start, mbind, M_bind, py_assert, pool_ctor, mpi_map,
    warnings_warn, lift, ret, raise, emit.
  rewrite Hmpi. repeat (case_match; simplify_eq/=); eauto.
Qed.

(** The events of the body up to the loop: none when it raises, else the
    creation of the pool and the starts of its workers. *)
Lemma imap_start_events (m : module_state) (e : env) a w :
  match imap_start m e a w with
  | (w1, Ok (b, it)) =>
      ∃ n started,
        events w1 = (events w ++ PoolCreated b n :: started)%list
        ∧ forallb is_worker_start started = true
  | (w1, Raise _) => events w1 = events w
  end.
Proof.
  destruct (decide (lower (a_if_serial a) ∈ policies)) as [Hpol|Hpol].
  2: { by rewrite imap_start_invalid_policy. }
  destruct (a_use_mpi a) eqn:Hmpi.
  { pose proof (imap_start_mpi_events m e a w Hmpi) as H.
    destruct (imap_start m e a w) as [w1 [[b it]|ex]]; [|done].
    destruct H as (-> & n & ->). by exists n, []. }
  destruct (decide (cpu_count e <= local_workers e a)).
  { by rewrite imap_start_local_too_many. }
  destruct (decide (local_workers e a <= 0)).
  { rewrite imap_start_local_nonpositive by (done || lia). done. }
  rewrite imap_start_local_world by (done || lia).
  destruct (a_s a); cbn; eexists _, _; (split; [reflexivity|]).
  - done.
  - apply worker_starts_are_starts.
Qed.

Lemma map_events_shape (m : module_state) (e : env) a w :
  ∃ w' r, map m e a w = Some (w', r)
  ∧ (events w' = events w
     ∨ ∃ b n started,
         events w'
         = (events w ++ PoolCreated b n :: started ++ [PoolShutdown b])%list
         ∧ forallb is_worker_start started = true).
Proof.
  rewrite map_unfold. pose proof (imap_start_events m e a w) as H.
  destruct (imap_start m e a w) as [w1 [[b it]|ex]].
  - destruct H as (n & started & Hev & Hst).
    eexists _, _. split; [reflexivity|]. right. exists b, n, started.
    split; [|done]. cbn. rewrite Hev. by rewrite <- app_assoc.
  - eexists _, _. split; [reflexivity|]. by left.
Qed.

(** X15. Whatever the call and however it ends, [map] shuts down the pool
    it created: either it leaves no event at all, or the events it leaves
    are the creation of one pool, the starts of workers, and the shutdown of
    that pool, in this order. *)
Theorem map_shuts_pool_down (m : module_state) (e : env) a w :
  ∃ w' r, map m e a w = Some (w', r)
  ∧ (events w' = events w
     ∨ ∃ b n started,
         events w'
         = (events w ++ PoolCreated b n :: started ++ [PoolShutdown b])%list
         ∧ forallb is_worker_start started = true).
Proof. apply map_events_shape. Qed.

(** X16. No call ever emits a warning: a warning among the events after
    [map] was there before the call. *)
Theorem map_never_warns (m : module_state) (e : env) a w (msg : string) :
  ∃ w' r, map m e a w = Some (w', r)
  ∧ (Warned msg ∈ events w' ↔ Warned msg ∈ events w).
Proof.
  destruct (map_events_shape m e a w) as (w' & r & Hmap & Hev).
  exists w', r. split; [done|].
  destruct Hev as [->|(b & n & started & -> & Hst)]; [done|].
  rewrite elem_of_app, elem_of_cons, elem_of_app, list_elem_of_singleton.
  split; [|by left]. intros [H|[H|[H|H]]]; [done|discriminate| |discriminate].
  rewrite forallb_forall in Hst. apply list_elem_of_In, Hst in H. done.
Qed.

Lemma or_default_raise (max_workers : option Z) (dflt : pyres Z) (ex : exn) :
  or_default max_workers dflt = Raise ex -> dflt = Raise ex.
Proof.
  unfold or_default. destruct max_workers as [n|]; [|done].
  by destruct (truthy (Some n)).
Qed.

(** X17. After an import that succeeded, the body of [imap] never raises
    the serial-execution error with the [mpirun] guidance: [USING_MPI] is
    set only when the universe does not report one slot, so the tests of
    lines 113 and 115 are false whenever they are reached. *)
Theorem guidance_never_raised (e : env) (m : module_state) a w :
  module_init e = Ok m ->
  snd (imap_start m e a w) ≠ Raise (RuntimeError (Some err_msg)).
Proof.
  intros Hinit.
  destruct (decide (lower (a_if_serial a) ∈ policies)) as [Hpol|Hpol].
  2: { by rewrite imap_start_invalid_policy. }
  destruct (a_use_mpi a) eqn:Hmpi.
  - destruct (USING_MPI m) eqn:Hm.
    2: { by rewrite imap_start_mpi_unavailable. }
    destruct (module_init_using_mpi e m Hinit Hm) as (_ & _ & Hu).
    unfold imap_start, mbind, M_bind, py_assert, pool_ctor, mpi_map,
      warnings_warn, lift, ret, raise, emit.
    rewrite Hmpi, Hm. rewrite (bool_decide_eq_false_2 _ Hu).
    repeat (case_match; simplify_eq/=); try done.
    all: match goal with H : or_default _ _ = Raise _ |- _ =>
           apply or_default_raise in H end; by simplify_eq.
  - destruct (decide (cpu_count e <= local_workers e a)).
    { by rewrite imap_start_local_too_many. }
    destruct (decide (local_workers e a <= 0)).
    { rewrite imap_start_local_nonpositive by (done || lia). done. }
    rewrite imap_start_local_world by (done || lia). done.
Qed.


(** ** The MPI path (lines 106-124) *)

(** X18. With MPI in use and a recognised policy, a call with a positive
    worker count creates the MPI pool with exactly that count, whatever the
    universe size and the CPU count, gathers the function's results in the
    order of the items up to the first exception, and shuts the pool down;
    it starts no local worker and leaves the registry alone. *)
Theorem mpi_map_in_order (e : env) (m : module_state) a w (n : Z) :
  module_init e = Ok m ->
  USING_MPI m = true ->
  lower (a_if_serial a) ∈ policies ->
  a_use_mpi a = true ->
  a_max_workers a = Some n ->
  0 < n ->
  ∃ w', map m e a w = Some (w', collect (fcall (a_f a) <$> a_s a))
  ∧ events w' = (events w ++ [PoolCreated DISTRIBUTED n;
                              PoolShutdown DISTRIBUTED])%list
  ∧ _FUNCTIONS w' = _FUNCTIONS w
  ∧ process_counter w' = process_counter w.
Proof.
  intros Hinit Hm Hpol Hmpi Hmw Hn.
  destruct (module_init_using_mpi e m Hinit Hm) as (_ & _ & Hu).
  assert (imap_start m e a w
          = (fst (emit (PoolCreated DISTRIBUTED n) w),
             Ok (DISTRIBUTED, fcall (a_f a) <$> a_s a))) as Hstart.
  { unfold imap_start, mbind, M_bind, py_assert, pool_ctor, mpi_map, lift,
      ret, or_default, truthy.
    rewrite bool_decide_eq_true_2 by done.
    rewrite Hmpi, Hm, Hmw, (bool_decide_eq_false_2 _ Hu). cbn.
    destruct (n =? 0) eqn:E0; [lia|]. cbn.
    by rewrite (proj2 (Z.leb_gt _ _) Hn). }
  eexists. rewrite map_unfold, Hstart. split; [reflexivity|].
  cbn. by rewrite <- app_assoc.
Qed.

(** X19. With MPI in use, an MPI that does not set the universe size, and
    no worker count supplied (or zero), the call raises [TypeError] from
    [None - 1], before any pool is created. *)
Theorem mpi_unset_universe (e : env) (m : module_state) a w :
  module_init e = Ok m ->
  USING_MPI m = true ->
  UNIVERSE_SIZE e = None ->
  lower (a_if_serial a) ∈ policies ->
  a_use_mpi a = true ->
  truthy (a_max_workers a) = false ->
  map m e a w = Some (w, Raise TypeError).
Proof.
  intros Hinit Hm Hu Hpol Hmpi Hmw.
  rewrite map_unfold.
  unfold imap_start, mbind, M_bind, py_assert, lift.
  rewrite bool_decide_eq_true_2 by done.
  rewrite Hmpi, Hm, Hu, or_default_falsy by done. reflexivity.
Qed.

(** ** The policy argument *)

(** X20. Only the lower-cased spelling of the policy counts: a call behaves
    as the call with the policy already lower-cased, [next] by [next] and
    under [map]. *)
Theorem policy_case_insensitive (m : module_state) (e : env) a w
    (if_serial : string) :
  next m e (GenCreated (with_if_serial a if_serial)) w
  = next m e (GenCreated (with_if_serial a (lower if_serial))) w
  ∧ map m e (with_if_serial a if_serial) w
    = map m e (with_if_serial a (lower if_serial)) w.
Proof.
  assert (imap_start m e (with_if_serial a if_serial) w
          = imap_start m e (with_if_serial a (lower if_serial)) w) as Hstart.
  { unfold imap_start.
    cbn [with_if_serial a_f a_s a_max_workers a_use_mpi a_seed a_if_serial].
    by rewrite lower_idemp. }
  split.
  - unfold next. by rewrite Hstart.
  - by rewrite !map_unfold, Hstart.
Qed.

(** X21. After an import that succeeded, which of the recognised policies
    is passed makes no difference to a call: on the local backend the
    policy is not consulted again, without MPI every MPI call fails alike,
    and with MPI the universe never has the single slot the policy is
    about. *)
Theorem policy_has_no_effect (e : env) (m : module_state) a w
    (p1 p2 : string) :
  module_init e = Ok m ->
  lower p1 ∈ policies ->
  lower p2 ∈ policies ->
  map m e (with_if_serial a p1) w = map m e (with_if_serial a p2) w.
Proof.
  intros Hinit Hp1 Hp2. rewrite !map_unfold.
  assert (imap_start m e (with_if_serial a p1) w
          = imap_start m e (with_if_serial a p2) w) as ->; [|done].
  unfold imap_start, mbind, M_bind, py_assert.
  cbn [with_if_serial a_f a_s a_max_workers a_use_mpi a_seed a_if_serial].
  rewrite (bool_decide_eq_true_2 _ Hp1), (bool_decide_eq_true_2 _ Hp2).
  cbv beta iota.
  destruct (a_use_mpi a); [|done].
  destruct (USING_MPI m) eqn:Hm; [|done].
  destruct (module_init_using_mpi e m Hinit Hm) as (_ & _ & Hu).
  by rewrite (bool_decide_eq_false_2 _ Hu).
Qed.

End MoreProperties.

(** * The further properties on the concrete machines *)

Lemma raise_is_policy : lower "raise" ∈ policies.
Proof. unfold policies. simpl. apply elem_of_cons. right. apply elem_of_cons. by left. Qed.

Lemma warn_is_policy : lower "warn" ∈ policies.
Proof.
  unfold policies. simpl. do 2 (apply elem_of_cons; right).
  apply elem_of_cons. by left.
Qed.

Lemma using_mpi_iff_witness :
  module_init mpi_env = Ok mpi_module
  ∧ (USING_MPI mpi_module = true
     ↔ env_flag (DONT_USE_MPI mpi_env) = false
       ∧ mpi4py_importable mpi_env = true
       ∧ UNIVERSE_SIZE mpi_env ≠ Some 1)
  ∧ MPI mpi_module = USING_MPI mpi_module.
Proof.
  split; [reflexivity|]. exact (using_mpi_iff mpi_env mpi_module eq_refl).
Defined.

(** Under [mpirun -n 2] the import itself fails. *)
Example import_fails_with_two_ranks :
  module_init two_ranks_env = Raise (NameError "seed").
Proof. reflexivity. Qed.

Lemma dont_use_mpi_disables_witness :
  DONT_USE_MPI disabled_env = Some "0"
  ∧ "0" ≠ ""
  ∧ module_init disabled_env
    = Ok {| MPI := false; COMM := None; USING_MPI := false |}.
Proof.
  split; [reflexivity|]. split; [discriminate|].
  apply (dont_use_mpi_disables disabled_env "0"); [reflexivity|discriminate].
Defined.

Lemma local_rank_is_digit_witness :
  process_rank None "ForkProcess-17" false = Ok 7 ∧ 0 <= 7 <= 9.
Proof.
  split; [reflexivity|].
  exact (local_rank_is_digit None "ForkProcess-17" 7 eq_refl).
Defined.

Lemma proxy_caches_function_witness :
  func demo_proxy = None
  ∧ ({[77 := double]} : gmap Z (pyfunc Z Z)) !! 77 = Some double
  ∧ snd (PicklableAndCallable_call {[77 := double]}
           demo_proxy 5)
    = Ok 10
  ∧ ∀ registry' (y : Z),
      PicklableAndCallable_call registry'
        (fst (PicklableAndCallable_call {[77 := double]}
                demo_proxy 5)) y
      = (fst (PicklableAndCallable_call {[77 := double]}
                demo_proxy 5), Ok (2 * y)).
Proof.
  split; [reflexivity|]. split; [apply lookup_singleton_eq|].
  apply (proxy_caches_function {[77 := double]} demo_proxy
           double 5); [reflexivity|apply lookup_singleton_eq].
Defined.

Lemma proxy_missing_key_witness :
  func demo_proxy = None
  ∧ (∅ : gmap Z (pyfunc Z Z)) !! 77 = None
  ∧ PicklableAndCallable_call (∅ : gmap Z (pyfunc Z Z))
      demo_proxy 5
    = (demo_proxy, Raise (RuntimeError None)).
Proof.
  split; [reflexivity|]. split; [apply lookup_empty|].
  apply (proxy_missing_key ∅ demo_proxy 5);
    [reflexivity|apply lookup_empty].
Defined.

Lemma registry_round_trip_witness :
  fid triple = fid double
  ∧ snd (PicklableAndCallable_call
           (_FUNCTIONS (fst (set_function 77 double empty_world)))
           demo_proxy 5)
    = Ok 10
  ∧ snd (PicklableAndCallable_call
           (_FUNCTIONS (fst (set_function 77 triple
                               (fst (set_function 77 double empty_world)))))
           demo_proxy 5)
    = Ok 15.
Proof.
  split; [reflexivity|].
  exact (registry_round_trip empty_world double triple 5 eq_refl).
Defined.

Lemma demo_workers_in_range :
  0 < local_workers demo_env (demo_call double (Some 2) false "raise")
    < cpu_count demo_env.
Proof. unfold local_workers. simpl. lia. Qed.

Lemma map_empty_input_witness :
  a_s empty_call = []
  ∧ ∃ w', map demo_module demo_env empty_call empty_world = Some (w', Ok [])
    ∧ events w' = [PoolCreated LOCAL 2; PoolShutdown LOCAL]
    ∧ process_counter w' = 0%N
    ∧ _FUNCTIONS w' = <[77 := double]> ∅.
Proof.
  split; [reflexivity|].
  apply (map_empty_input demo_module demo_env empty_call empty_world).
  - apply raise_is_policy.
  - reflexivity.
  - unfold local_workers. simpl. lia.
  - reflexivity.
Defined.

Lemma map_starts_workers_witness :
  a_s (demo_call double (Some 2) false "raise") ≠ []
  ∧ ∃ w', map demo_module demo_env (demo_call double (Some 2) false "raise")
            empty_world
          = Some (w', Ok [2; 4; 6])
    ∧ events w' = [PoolCreated LOCAL 2;
                   WorkerStarted "ForkProcess-1" (Ok 1001);
                   WorkerStarted "ForkProcess-2" (Ok 1002);
                   PoolShutdown LOCAL]
    ∧ process_counter w' = 2%N.
Proof.
  split; [discriminate|].
  apply (map_starts_workers demo_module demo_env
           (demo_call double (Some 2) false "raise") empty_world).
  - apply raise_is_policy.
  - reflexivity.
  - apply demo_workers_in_range.
  - discriminate.
Defined.


(** One [next], then [list] on what is left of [imap(double, [1, 2, 3])]. *)
Lemma imap_yields_in_order_witness :
  a_s (demo_call double (Some 2) false "raise") = ([1] ++ [2; 3])%list
  ∧ advance 1 demo_module demo_env
      (GenCreated (demo_call double (Some 2) false "raise")) empty_world
    = (fst (imap_start demo_module demo_env
              (demo_call double (Some 2) false "raise") empty_world),
       [Yielded 2], GenSuspended LOCAL [Ok 4; Ok 6])
  ∧ advance 4 demo_module demo_env
      (GenCreated (demo_call double (Some 2) false "raise")) empty_world
    = (shutdown LOCAL
         (fst (imap_start demo_module demo_env
                 (demo_call double (Some 2) false "raise") empty_world)),
       [Yielded 2; Yielded 4; Yielded 6; StopIteration], GenFinished)
  ∧ py_list demo_module demo_env (GenSuspended LOCAL [Ok 4; Ok 6])
      (fst (imap_start demo_module demo_env
              (demo_call double (Some 2) false "raise") empty_world))
    = Some (shutdown LOCAL
              (fst (imap_start demo_module demo_env
                      (demo_call double (Some 2) false "raise") empty_world)),
            Ok [4; 6]).
Proof.
  split; [reflexivity|].
  apply (imap_yields_in_order demo_module demo_env
           (demo_call double (Some 2) false "raise") empty_world
           (fun x => 2 * x) [1] [2; 3]).
  - apply raise_is_policy.
  - reflexivity.
  - apply demo_workers_in_range.
  - reflexivity.
  - discriminate.
  - by repeat constructor.
Defined.

(** [picky] raises on the second of three items. *)
Lemma imap_raises_in_order_witness :
  a_s (demo_call picky (Some 2) false "raise") = ([1] ++ 2 :: [3])%list
  ∧ fcall picky 2 = Raise (UserError 2)
  ∧ advance 2 demo_module demo_env
      (GenCreated (demo_call picky (Some 2) false "raise")) empty_world
    = (shutdown LOCAL
         (fst (imap_start demo_module demo_env
                 (demo_call picky (Some 2) false "raise") empty_world)),
       [Yielded 2; Raised (UserError 2)], GenFinished)
  ∧ map demo_module demo_env (demo_call picky (Some 2) false "raise") empty_world
    = Some (shutdown LOCAL
              (fst (imap_start demo_module demo_env
                      (demo_call picky (Some 2) false "raise") empty_world)),
            Raise (UserError 2)).
Proof.
  split; [reflexivity|]. split; [reflexivity|].
  apply (imap_raises_in_order demo_module demo_env
           (demo_call picky (Some 2) false "raise") empty_world
           (fun x => 2 * x) [1] [3] 2 (UserError 2)).
  - apply raise_is_policy.
  - reflexivity.
  - unfold local_workers. simpl. lia.
  - reflexivity.
  - by repeat constructor.
  - reflexivity.
Defined.

(** The [next] that exhausts a generator, and three more. *)
Lemma finished_stays_finished_witness :
  next demo_module demo_env (GenSuspended LOCAL []) empty_world
  = (shutdown LOCAL empty_world, StopIteration, GenFinished)
  ∧ ∀ w2 : world Z Z,
      advance 3 demo_module demo_env GenFinished w2
      = (w2, [StopIteration; StopIteration; StopIteration], GenFinished).
Proof.
  split; [reflexivity|].
  destruct (finished_stays_finished demo_module demo_env
              (GenSuspended LOCAL []) empty_world
              (shutdown LOCAL empty_world) StopIteration GenFinished eq_refl)
    as [_ Hlater]; [discriminate|].
  intros w2. exact (Hlater 3%nat w2).
Defined.

Lemma guidance_never_raised_witness :
  module_init mpi_env = Ok mpi_module
  ∧ snd (imap_start mpi_module mpi_env (demo_call double None true "raise")
           empty_world)
    ≠ Raise (RuntimeError (Some err_msg)).
Proof.
  split; [reflexivity|].
  exact (guidance_never_raised mpi_env mpi_module
           (demo_call double None true "raise") empty_world eq_refl).
Defined.

(** Eight MPI workers asked for in a universe of four slots. *)
Lemma mpi_map_in_order_witness :
  module_init mpi_env = Ok mpi_module
  ∧ USING_MPI mpi_module = true
  ∧ ∃ w', map mpi_module mpi_env (demo_call double (Some 8) true "warn")
            empty_world
          = Some (w', Ok [2; 4; 6])
    ∧ events w' = [PoolCreated DISTRIBUTED 8; PoolShutdown DISTRIBUTED]
    ∧ _FUNCTIONS w' = ∅
    ∧ process_counter w' = 0%N.
Proof.
  split; [reflexivity|]. split; [reflexivity|].
  apply (mpi_map_in_order mpi_env mpi_module
           (demo_call double (Some 8) true "warn") empty_world 8).
  - reflexivity.
  - reflexivity.
  - apply warn_is_policy.
  - reflexivity.
  - reflexivity.
  - lia.
Defined.

Lemma mpi_unset_universe_witness :
  module_init unset_universe_env = Ok mpi_module
  ∧ UNIVERSE_SIZE unset_universe_env = None
  ∧ truthy (a_max_workers (demo_call double None true "raise")) = false
  ∧ map mpi_module unset_universe_env (demo_call double None true "raise")
      empty_world
    = Some (empty_world, Raise TypeError).
Proof.
  split; [reflexivity|]. split; [reflexivity|]. split; [reflexivity|].
  apply (mpi_unset_universe unset_universe_env mpi_module
           (demo_call double None true "raise") empty_world);
    [reflexivity|reflexivity|reflexivity| |reflexivity|reflexivity].
  apply raise_is_policy.
Defined.

Lemma policy_has_no_effect_witness :
  module_init mpi_env = Ok mpi_module
  ∧ map mpi_module mpi_env
      (with_if_serial (demo_call double (Some 2) true "x") "raise") empty_world
    = map mpi_module mpi_env
        (with_if_serial (demo_call double (Some 2) true "x") "warn") empty_world.
Proof.
  split; [reflexivity|].
  apply (policy_has_no_effect mpi_env mpi_module
           (demo_call double (Some 2) true "x") empty_world "raise" "warn").
  - reflexivity.
  - apply raise_is_policy.
  - apply warn_is_policy.
Defined.


(** * Seeds of the workers of one call *)

Lemma append_inj_r (p s1 s2 : string) : p +:+ s1 = p +:+ s2 -> s1 = s2.
Proof. induction p as [|c p IH]; simpl; [done|]. intros [= H]. by apply IH. Qed.

Lemma worker_name_inj (e : env) (k1 k2 : N) :
  worker_name e k1 = worker_name e k2 -> k1 = k2.
Proof.
  unfold worker_name. intros H. apply append_inj_r in H.
  by apply (inj pretty) in H.
Qed.

Section SeedsOfACall.

Context {A B : Type}.
Implicit Types (w : world A B) (a : imap_args A B).

(** C4, as the code behaves. A local call with a base seed and more than
    ten workers starts its workers with the seeds base seed plus the last
    decimal digit of the worker's number: the first and the eleventh worker
    of the call are two processes with one seed. *)
Theorem workers_share_seed (m : module_state) (e : env) a w (base : Z) :
  lower (a_if_serial a) ∈ policies ->
  a_use_mpi a = false ->
  10 < local_workers e a < cpu_count e ->
  a_s a ≠ [] ->
  a_seed a = Some base ->
  ∃ w' r,
    map m e a w = Some (w', r)
    ∧ events w'
      = (events w ++ PoolCreated LOCAL (local_workers e a)
         :: worker_starts e (Some base) (process_counter w)
              (Z.to_nat (local_workers e a))
         ++ [PoolShutdown LOCAL])%list
    ∧ WorkerStarted (worker_name e (process_counter w + 1))
        (Ok (base + Z.of_N ((process_counter w + 1) `mod` 10)))
      ∈ events w'
    ∧ WorkerStarted (worker_name e (process_counter w + 11))
        (Ok (base + Z.of_N ((process_counter w + 1) `mod` 10)))
      ∈ events w'
    ∧ worker_name e (process_counter w + 1)
      ≠ worker_name e (process_counter w + 11).
Proof.
  intros Hpol Hmpi [Hmany Hlt] Hs Hseed.
  assert (∀ i : nat,
            (i < Z.to_nat (local_workers e a))%nat ->
            WorkerStarted (worker_name e (process_counter w + 1 + N.of_nat i))
              (Ok (base
                   + Z.of_N ((process_counter w + 1 + N.of_nat i) `mod` 10)))
            ∈ worker_starts e (Some base) (process_counter w)
                (Z.to_nat (local_workers e a))) as Hstarted.
  { intros i Hi. unfold worker_starts. apply list_elem_of_fmap.
    exists i. split; [done|]. apply elem_of_seq. lia. }
  destruct (a_s a) as [|x s] eqn:Has; [done|].
  eexists _, _. rewrite map_unfold, imap_start_local_world by (done || lia).
  rewrite Has, Hseed.
  split; [reflexivity|]. cbn [shutdown emit fst events].
  rewrite <- app_assoc. cbn [app]. split_and!.
  - done.
  - apply elem_of_app; right. apply elem_of_cons; right.
    apply elem_of_app; left.
    specialize (Hstarted 0%nat ltac:(lia)).
    by rewrite N.add_0_r in Hstarted.
  - apply elem_of_app; right. apply elem_of_cons; right.
    apply elem_of_app; left.
    specialize (Hstarted 10%nat ltac:(lia)).
    replace (process_counter w + 1 + N.of_nat 10)%N
      with (process_counter w + 11)%N in Hstarted by lia.
    replace ((process_counter w + 11) `mod` 10)%N
      with ((process_counter w + 1) `mod` 10)%N in Hstarted; [done|].
    replace (process_counter w + 11)%N
      with (process_counter w + 1 + 1 * 10)%N by lia.
    by rewrite N.Div0.mod_add.
  - intros H. apply worker_name_inj in H. lia.
Qed.

End SeedsOfACall.

(** Eleven workers on sixteen CPUs with the base seed 42: [ForkProcess-1]
    and [ForkProcess-11] both start with the seed 43. *)
Lemma workers_share_seed_witness :
  10 < local_workers big_env seeded_call < cpu_count big_env
  ∧ a_seed seeded_call = Some 42
  ∧ ∃ w' r,
      map demo_module big_env seeded_call empty_world = Some (w', r)
      ∧ events w'
        = (events empty_world ++ PoolCreated LOCAL 11
           :: worker_starts big_env (Some 42) 0 11 ++ [PoolShutdown LOCAL])%list
      ∧ WorkerStarted "ForkProcess-1" (Ok 43) ∈ events w'
      ∧ WorkerStarted "ForkProcess-11" (Ok 43) ∈ events w'
      ∧ "ForkProcess-1" ≠ "ForkProcess-11".
Proof.
  assert (10 < local_workers big_env seeded_call < cpu_count big_env) as Hn
    by (unfold local_workers; simpl; lia).
  split; [exact Hn|]. split; [reflexivity|].
  apply (workers_share_seed demo_module big_env seeded_call empty_world 42).
  - apply raise_is_policy.
  - reflexivity.
  - exact Hn.
  - discriminate.
  - reflexivity.
Defined.

End parallel.
